(** * Citation extraction of the GSPP user-guides search app

    A shallow embedding of [extract_citations] (src/app.py, lines 176-276)
    and the properties of its fallback chain, branch selection and
    deduplication.

    Python objects are records whose attributes may be unset, set to [None]
    or set to a value; dictionaries with insertion-order iteration are
    association lists; the [seen] set is a [gset]; the diagnostics dictionary
    is a [gmap] from key strings.

    A Python [str] that reaches the program at run time (titles, texts, uris,
    store names, messages) is a list of characters, each character being its
    Unicode code point, so that [len] and slices count characters.  Rocq's
    [string] is kept for the text the program itself fixes: attribute names,
    dictionary keys and the notes of the diagnostics. *)

From Stdlib Require Import ZArith String Ascii.
From stdpp Require Import base gmap sets list strings pretty.

Local Open Scope string_scope.
Local Open Scope list_scope.

(** ** Python values and attributes *)

(** A Python expression of static type [A] evaluates to [None] or to an [A]. *)
Inductive value (A : Type) : Type :=
  | PyNone
  | Py (a : A).
Arguments PyNone {A}.
Arguments Py {A} a.

(** An attribute of an object is either not there at all, or holds a value. *)
Inductive attr (A : Type) : Type :=
  | NoAttr
  | Attr (v : value A).
Arguments NoAttr {A}.
Arguments Attr {A} v.

(** [getattr(o, name, default)]. *)
Definition getattr {A} (a : attr A) (default : value A) : value A :=
  match a with
  | NoAttr => default
  | Attr v => v
  end.

(** A Python [str]: the list of its characters, given by their code points. *)
Abbreviation str := (list N) (only parsing).

(** A literal of the program text, as a [str]; the literals of the source
    are ASCII, where the code of a character is its code point. *)
Fixpoint lit (s : string) : str :=
  match s with
  | EmptyString => []
  | String a s' => N_of_ascii a :: lit s'
  end.

(** Truth value testing: empty strings, empty lists and [None] are falsy;
    plain objects (no [__bool__], no [__len__]) are truthy. *)
Class Truthy (A : Type) := truthy : A → bool.

#[global] Instance string_truthy : Truthy string :=
  λ s, match s with EmptyString => false | String _ _ => true end.
#[global] Instance list_truthy {A} : Truthy (list A) :=
  λ l, match l with [] => false | _ :: _ => true end.
#[global] Instance value_truthy {A} `{Truthy A} : Truthy (value A) :=
  λ v, match v with PyNone => false | Py a => truthy a end.

(** [x or y] between two values of the same type. *)
Definition py_or {A} `{Truthy A} (x y : A) : A :=
  if truthy x then x else y.

(** [v or d] where the last operand [d] is a literal that is not [None]:
    the result is not [None] either. *)
Definition or_else {A} `{Truthy A} (v : value A) (d : A) : A :=
  match v with
  | Py a => if truthy a then a else d
  | PyNone => d
  end.

#[global] Instance value_eq_dec {A} `{EqDecision A} : EqDecision (value A).
Proof. solve_decision. Defined.

#[global] Instance value_countable {A} `{Countable A} : Countable (value A).
Proof.
  refine (inj_countable' (λ v, match v with PyNone => None | Py a => Some a end)
                         (λ o, match o with None => PyNone | Some a => Py a end) _).
  by intros [|a].
Defined.

(** [s[:n]] on a [str]: its first [n] characters, all of it when it is
    shorter. *)
Fixpoint slice_to (n : nat) (s : str) : str :=
  match n, s with
  | S n', c :: s' => c :: slice_to n' s'
  | _, _ => []
  end.

(** [attr.startswith('_')]. *)
Definition startswith_underscore (s : string) : bool :=
  match s with
  | String c _ => bool_decide (c = "_"%char)
  | EmptyString => false
  end.

(** [[attr for attr in dir(o) if not attr.startswith('_')]], from the list
    [dir(o)] returns. *)
Definition public_attrs (dir : list string) : list string :=
  filter (λ a, startswith_underscore a = false) dir.

(** [enumerate(l)]. *)
Fixpoint enumerate_from {A} (i : Z) (l : list A) : list (Z * A) :=
  match l with
  | [] => []
  | x :: l' => (i, x) :: enumerate_from (i + 1) l'
  end.
Definition enumerate {A} (l : list A) : list (Z * A) := enumerate_from 0 l.

(** ** Dictionaries that are iterated: insertion-ordered association lists *)

Fixpoint dict_set {V} (k : Z) (v : V) (d : list (Z * V)) : list (Z * V) :=
  match d with
  | [] => [(k, v)]
  | (k', v') :: d' =>
      if decide (k = k') then (k, v) :: d' else (k', v') :: dict_set k v d'
  end.

Fixpoint dict_get {V} (k : Z) (d : list (Z * V)) : option V :=
  match d with
  | [] => None
  | (k', v') :: d' => if decide (k = k') then Some v' else dict_get k d'
  end.

(** ** The response objects of the generative service *)

Record RetrievedContext := {
  title : attr str;
  displayName : attr str;
  uri : attr str;
}.

Record GroundingChunk := {
  chunk_dir : list string;
  retrieved_context : attr RetrievedContext;
  retrievedContext : attr RetrievedContext;
  text : attr str;
  content : attr str;
}.

Record GroundingSupport := {
  grounding_chunk_indices : attr (list Z);
  groundingChunkIndices : attr (list Z);
}.

Record RetrievalMetadata := {
  retrieval_metadata_dir : list string;
}.

Record GroundingMetadata := {
  metadata_dir : list string;
  grounding_chunks : attr (list GroundingChunk);
  groundingChunks : attr (list GroundingChunk);
  grounding_supports : attr (list GroundingSupport);
  groundingSupports : attr (list GroundingSupport);
  retrieval_metadata : attr RetrievalMetadata;
}.

Record Candidate := {
  candidate_dir : list string;
  grounding_metadata : attr GroundingMetadata;
}.

Record Response := {
  response_text : attr str;
  candidates : attr (list Candidate);
}.

(** The objects of the response define neither [__bool__] nor [__len__]:
    each of them is truthy, so that [not o] holds exactly when [o] is [None]. *)
#[global] Instance context_truthy : Truthy RetrievedContext := λ _, true.
#[global] Instance retrieval_truthy : Truthy RetrievalMetadata := λ _, true.
#[global] Instance metadata_truthy : Truthy GroundingMetadata := λ _, true.

(** ** The values [extract_citations] builds *)

(** The [info] dictionary of one chunk: ['index'] and ['text'] are always
    set, ['title'] and ['uri'] only when the chunk has a retrieved context. *)
Record ChunkInfo := {
  info_index : Z;
  info_title : option (value str);
  info_uri : option (value str);
  info_text : value str;
}.

(** [info.get(key, default)] on a key that may be missing. *)
Definition dict_get_default {A} (entry : option (value A)) (default : value A)
  : value A :=
  match entry with
  | Some v => v
  | None => default
  end.

(** A citation dictionary: the keys ['title'], ['source_text'], ['uri']. *)
Record Citation := {
  cit_title : value str;
  source_text : value str;
  cit_uri : value str;
}.

#[global] Instance citation_eq_dec : EqDecision Citation.
Proof. solve_decision. Defined.

(** The values stored in [debug_info]. *)
Inductive DebugValue :=
  | DStr (s : string)
  | DNames (names : list string)
  | DBool (b : bool)
  | DInt (n : Z).

#[global] Instance debug_value_eq_dec : EqDecision DebugValue.
Proof. solve_decision. Defined.

Inductive exn :=
  | AttributeError (name : string).

Inductive result (A : Type) : Type :=
  | Ok (a : A)
  | Raise (e : exn).
Arguments Ok {A} a.
Arguments Raise {A} e.

(** ** extract_citations, piece by piece *)

(** Lines 197-201. *)
Definition resolve_grounding_chunks (metadata : GroundingMetadata)
  : list GroundingChunk :=
  or_else (py_or (getattr (grounding_chunks metadata) PyNone)
                 (getattr (groundingChunks metadata) PyNone))
          [].

(** Lines 203-207. *)
Definition resolve_grounding_supports (metadata : GroundingMetadata)
  : list GroundingSupport :=
  or_else (py_or (getattr (grounding_supports metadata) PyNone)
                 (getattr (groundingSupports metadata) PyNone))
          [].

(** Lines 221-236: the [info] dictionary of chunk [i]. *)
Definition chunk_to_info (i : Z) (chunk : GroundingChunk) : ChunkInfo :=
  let ctx := py_or (getattr (retrieved_context chunk) PyNone)
                   (getattr (retrievedContext chunk) PyNone) in
  let text_ := py_or (getattr (text chunk) (Py []))
                     (getattr (content chunk) (Py [])) in
  match ctx with
  | Py c =>
      {| info_index := i;
         info_title :=
           Some (py_or (getattr (title c) (Py []))
                       (getattr (displayName c) (Py (lit "Unknown Source"))));
         info_uri := Some (getattr (uri c) (Py []));
         info_text := text_ |}
  | PyNone =>
      {| info_index := i;
         info_title := None;
         info_uri := None;
         info_text := text_ |}
  end.

(** Lines 220-238: one iteration of the loop over [enumerate(grounding_chunks)];
    the state is [(chunk_info, debug_info)]. *)
Definition chunk_step
    (st : list (Z * ChunkInfo) * gmap string DebugValue)
    (ic : Z * GroundingChunk) : list (Z * ChunkInfo) * gmap string DebugValue :=
  let '(chunk_info, debug_info) := st in
  let '(i, chunk) := ic in
  let debug_info :=
    <["chunk_" +:+ pretty i +:+ "_attrs" := DNames (public_attrs (chunk_dir chunk))]>
      debug_info in
  (dict_set i (chunk_to_info i chunk) chunk_info, debug_info).

Definition build_chunk_info (chunks : list GroundingChunk)
    (debug_info : gmap string DebugValue)
  : list (Z * ChunkInfo) * gmap string DebugValue :=
  fold_left chunk_step (enumerate chunks) ([], debug_info).

(** Lines 242-248: the citation of a chunk used directly. *)
Definition direct_citation (info : ChunkInfo) : Citation :=
  {| cit_title := dict_get_default (info_title info) (Py (lit "Source Document"));
     source_text := info_text info;
     cit_uri := dict_get_default (info_uri info) (Py []) |}.

(** Line 243: [info.get('text') or info.get('title')]. *)
Definition citable (info : ChunkInfo) : bool :=
  truthy (py_or (info_text info) (dict_get_default (info_title info) PyNone)).

Definition direct_citations (chunk_info : list (Z * ChunkInfo)) : list Citation :=
  fold_left
    (λ citations '(i, info),
       if citable info then citations ++ [direct_citation info] else citations)
    chunk_info [].

(** Lines 252-256. *)
Definition chunk_indices_of (support : GroundingSupport) : list Z :=
  or_else (py_or (getattr (grounding_chunk_indices support) (Py []))
                 (getattr (groundingChunkIndices support) (Py [])))
          [].

(** Lines 261-265: the citation of a chunk referenced by a support. *)
Definition support_citation (info : ChunkInfo) : Citation :=
  {| cit_title := dict_get_default (info_title info) (Py (lit "Unknown"));
     source_text := info_text info;
     cit_uri := dict_get_default (info_uri info) (Py []) |}.

(** Lines 258-265: the inner loop over the indices of one support. *)
Definition index_step (chunk_info : list (Z * ChunkInfo))
    (citations : list Citation) (idx : Z) : list Citation :=
  match dict_get idx chunk_info with
  | Some info => citations ++ [support_citation info]
  | None => citations
  end.

(** Lines 251-265. *)
Definition support_citations (chunk_info : list (Z * ChunkInfo))
    (supports : list GroundingSupport) : list Citation :=
  fold_left
    (λ citations support,
       fold_left (index_step chunk_info) (chunk_indices_of support) citations)
    supports [].

(** Line 271: [c['source_text'][:100] if c['source_text'] else '']. *)
Definition text_prefix (source : value str) : str :=
  match source with
  | Py s => if truthy s then slice_to 100 s else []
  | PyNone => []
  end.

(** Line 271: the deduplication key of a citation. *)
Definition dedup_key (c : Citation) : value str * str :=
  (cit_title c, text_prefix (source_text c)).

(** Lines 270-274: one iteration; the state is [(seen, unique_citations)]. *)
Definition dedup_step (st : gset (value str * str) * list Citation)
    (c : Citation) : gset (value str * str) * list Citation :=
  let '(seen, unique_citations) := st in
  let key := dedup_key c in
  if decide (key ∈ seen) then (seen, unique_citations)
  else ({[key]} ∪ seen, unique_citations ++ [c]).

(** Lines 267-276. *)
Definition deduplicate (citations : list Citation) : list Citation :=
  snd (fold_left dedup_step citations (∅, [])).

(** Lines 241-265: the citations of the branch taken, before deduplication. *)
Definition branch_citations (chunks : list GroundingChunk)
    (supports : list GroundingSupport) (chunk_info : list (Z * ChunkInfo))
  : list Citation :=
  if truthy chunks && negb (truthy supports)
  then direct_citations chunk_info
  else support_citations chunk_info supports.

(** Lines 193-276: the part of the function that runs once the metadata
    object is found. *)
Definition extract_from_metadata (metadata : GroundingMetadata)
  : list Citation * gmap string DebugValue :=
  let debug_info : gmap string DebugValue :=
    <["metadata_attrs" := DNames (public_attrs (metadata_dir metadata))]> ∅ in
  let chunks := resolve_grounding_chunks metadata in
  let supports := resolve_grounding_supports metadata in
  let debug_info :=
    match getattr (retrieval_metadata metadata) PyNone with
    | Py rm =>
        <["retrieval_metadata_attrs" :=
            DNames (public_attrs (retrieval_metadata_dir rm))]>
          (<["has_retrieval_metadata" := DBool true]> debug_info)
    | PyNone => debug_info
    end in
  let debug_info :=
    <["grounding_chunks_count" :=
        DInt (if truthy chunks then Z.of_nat (length chunks) else 0)]>
      debug_info in
  let debug_info :=
    <["grounding_supports_count" :=
        DInt (if truthy supports then Z.of_nat (length supports) else 0)]>
      debug_info in
  let '(chunk_info, debug_info) := build_chunk_info chunks debug_info in
  let citations := branch_citations chunks supports chunk_info in
  (deduplicate citations, debug_info).

(** Lines 185-191: [if not metadata] is taken when the attribute is unset
    (the [getattr] default) or [None]. *)
Definition extract_from_candidate (candidate : Candidate)
  : list Citation * gmap string DebugValue :=
  match getattr (grounding_metadata candidate) PyNone with
  | Py metadata => extract_from_metadata metadata
  | PyNone =>
      ([],
       <["candidate_attrs" := DNames (public_attrs (candidate_dir candidate))]>
         (<["error" := DStr "No grounding_metadata in candidate"]> ∅))
  end.

(** Lines 176-276.  [response.candidates] is a plain attribute access: it
    raises when the attribute is not there.  A falsy [candidates] ([None] or
    the empty list) returns early; otherwise [candidates[0]] is the head. *)
Definition extract_citations (response : Response) (show_debug : bool)
  : result (list Citation * gmap string DebugValue) :=
  match candidates response with
  | NoAttr => Raise (AttributeError "candidates")
  | Attr PyNone | Attr (Py []) =>
      Ok ([], <["error" := DStr "No candidates in response"]> ∅)
  | Attr (Py (candidate :: _)) => Ok (extract_from_candidate candidate)
  end.

(** ** What the specification says, in its own words *)

(** "first 100 characters of source_text", of a source text that may be
    [None]. *)
Definition first_100_characters (source : value str) : str :=
  match source with
  | Py s => take 100 s
  | PyNone => []
  end.

(** "key = (title, first 100 characters of source_text)". *)
Definition citation_key (c : Citation) : value str * str :=
  (cit_title c, first_100_characters (source_text c)).

(** "keep first occurrence, discard subsequent duplicates, preserving
    original relative order": position [i] of the candidate list is kept
    exactly when its key does not occur among the [i] elements before it. *)
Definition first_occurrences (l : list Citation) : list Citation :=
  mjoin (imap (λ i c,
                 if decide (citation_key c ∈ citation_key <$> take i l)
                 then [] else [c]) l).

(** "for each support in input order, for each chunk-index it references
    (in the order listed within that support), if the index exists in the
    chunk map, emit a citation built from that chunk's info": the chunk
    map holds the positions of the chunk list. *)
Definition citation_at (chunks : list GroundingChunk) (idx : Z)
  : list Citation :=
  if decide (0 ≤ idx < Z.of_nat (length chunks))%Z
  then match chunks !! Z.to_nat idx with
       | Some chunk => [support_citation (chunk_to_info idx chunk)]
       | None => []
       end
  else [].

Definition citations_at (chunks : list GroundingChunk) (indices : list Z)
  : list Citation :=
  indices ≫= citation_at chunks.

(** "checking a primary field name, then an alternate field name, then
    defaulting to an empty list -- first non-falsy wins". *)
Definition first_non_falsy {A} (primary alternate : attr (list A)) : list A :=
  match primary with
  | Attr (Py (x :: l)) => x :: l
  | _ =>
      match alternate with
      | Attr (Py (x :: l)) => x :: l
      | _ => []
      end
  end.

(** ** Closed forms of the loops *)

(** The deduplication loop started from a given [seen] set. *)
Fixpoint dedup_from (seen : gset (value str * str))
    (cs : list Citation) : list Citation :=
  match cs with
  | [] => []
  | c :: cs' =>
      if decide (dedup_key c ∈ seen) then dedup_from seen cs'
      else c :: dedup_from ({[dedup_key c]} ∪ seen) cs'
  end.

(** The entries the loop of lines 220-238 appends for chunks numbered from [i]. *)
Definition infos_from (i : Z) (chunks : list GroundingChunk)
  : list (Z * ChunkInfo) :=
  (λ ic, (ic.1, chunk_to_info ic.1 ic.2)) <$> enumerate_from i chunks.

(** The chunk map of a chunk list, in insertion order. *)
Definition chunk_info_of (chunks : list GroundingChunk) : list (Z * ChunkInfo) :=
  infos_from 0 chunks.

(** The [info] dictionaries in chunk order. *)
Definition chunk_infos (chunks : list GroundingChunk) : list ChunkInfo :=
  imap (λ n chunk, chunk_to_info (Z.of_nat n) chunk) chunks.

(** What one index of a support contributes. *)
Definition cite_index (chunk_info : list (Z * ChunkInfo)) (idx : Z)
  : list Citation :=
  match dict_get idx chunk_info with
  | Some info => [support_citation info]
  | None => []
  end.

(** [debug_info] as it stands at line 216, before the loop over the chunks. *)
Definition debug_info_before_chunks (m : GroundingMetadata)
  : gmap string DebugValue :=
  let debug_info : gmap string DebugValue :=
    match getattr (retrieval_metadata m) PyNone with
    | Py rm =>
        <["retrieval_metadata_attrs" :=
            DNames (public_attrs (retrieval_metadata_dir rm))]>
          (<["has_retrieval_metadata" := DBool true]>
             (<["metadata_attrs" := DNames (public_attrs (metadata_dir m))]> ∅))
    | PyNone =>
        <["metadata_attrs" := DNames (public_attrs (metadata_dir m))]> ∅
    end in
  <["grounding_supports_count" :=
      DInt (Z.of_nat (length (resolve_grounding_supports m)))]>
    (<["grounding_chunks_count" :=
         DInt (Z.of_nat (length (resolve_grounding_chunks m)))]> debug_info).

(** The citations of the branch taken for the first candidate of a
    response, before deduplication; empty when the function returns early. *)
Definition metadata_candidates (metadata : GroundingMetadata) : list Citation :=
  let chunks := resolve_grounding_chunks metadata in
  branch_citations chunks (resolve_grounding_supports metadata)
                   (chunk_info_of chunks).

Definition response_candidates (response : Response) : list Citation :=
  match candidates response with
  | Attr (Py (candidate :: _)) =>
      match getattr (grounding_metadata candidate) PyNone with
      | Py metadata => metadata_candidates metadata
      | PyNone => []
      end
  | _ => []
  end.

(** ** Sample responses *)

Definition context_titled (t : string) : RetrievedContext :=
  {| title := Attr (Py (lit t)); displayName := NoAttr; uri := NoAttr |}.

Definition context_untitled : RetrievedContext :=
  {| title := NoAttr; displayName := NoAttr; uri := Attr (Py (lit "files/guide")) |}.

Definition chunk_with (ctx : attr RetrievedContext) (t : attr str)
  : GroundingChunk :=
  {| chunk_dir := ["__class__"; "retrieved_context"; "text"];
     retrieved_context := ctx;
     retrievedContext := NoAttr;
     text := t;
     content := NoAttr |}.

Definition titled_chunk (t x : string) : GroundingChunk :=
  chunk_with (Attr (Py (context_titled t))) (Attr (Py (lit x))).

Definition bare_chunk (x : string) : GroundingChunk :=
  chunk_with NoAttr (Attr (Py (lit x))).

(** A hundred em dashes (U+2014): a text prefix of exactly 100 characters,
    none of them ASCII. *)
Definition dashes : str := replicate 100 8212%N.

(** A chunk with a titled context and the given text. *)
Definition chunk_titled (t : string) (x : str) : GroundingChunk :=
  chunk_with (Attr (Py (context_titled t))) (Attr (Py x)).

(** The citation of such a chunk, in either branch. *)
Definition citation_titled (t : string) (x : str) : Citation :=
  {| cit_title := Py (lit t); source_text := Py x; cit_uri := Py [] |}.

Definition support_of (indices : list Z) : GroundingSupport :=
  {| grounding_chunk_indices := Attr (Py indices);
     groundingChunkIndices := NoAttr |}.

Definition metadata_of (chunks : list GroundingChunk)
    (supports : list GroundingSupport) : GroundingMetadata :=
  {| metadata_dir := ["__class__"; "grounding_chunks"; "grounding_supports"];
     grounding_chunks := Attr (Py chunks);
     groundingChunks := NoAttr;
     grounding_supports := Attr (Py supports);
     groundingSupports := NoAttr;
     retrieval_metadata := NoAttr |}.

Definition candidate_of (metadata : attr GroundingMetadata) : Candidate :=
  {| candidate_dir := ["__class__"; "_private"; "content"; "finish_reason"];
     grounding_metadata := metadata |}.

Definition response_of (cands : list Candidate) : Response :=
  {| response_text := Attr (Py (lit "answer")); candidates := Attr (Py cands) |}.

Definition grounded_response (chunks : list GroundingChunk)
    (supports : list GroundingSupport) : Response :=
  response_of [candidate_of (Attr (Py (metadata_of chunks supports)))].

(** ** Further notions used to state properties of [extract_citations] *)

(** The key under which the loop of lines 220-238 files the attribute names
    of chunk [i] (line 223). *)
Definition chunk_attrs_key (i : Z) : string :=
  "chunk_" +:+ pretty i +:+ "_attrs".

(** No attribute that [extract_citations] reads on the chunk or on its
    retrieved context is set to [None]: each is unset or holds a string. *)
Definition context_without_none (ctx : RetrievedContext) : Prop :=
  title ctx ≠ Attr PyNone ∧ displayName ctx ≠ Attr PyNone ∧
  uri ctx ≠ Attr PyNone.

Definition chunk_without_none (chunk : GroundingChunk) : Prop :=
  text chunk ≠ Attr PyNone ∧ content chunk ≠ Attr PyNone ∧
  ∀ ctx,
    retrieved_context chunk = Attr (Py ctx)
    ∨ retrievedContext chunk = Attr (Py ctx) →
    context_without_none ctx.

(** The branch taken emits a citation for the chunk at position [n]: there
    are no supports and the title or the text of the chunk is non-empty, or
    some support references [n]. *)
Definition emitted (m : GroundingMetadata) (n : nat) (chunk : GroundingChunk)
  : Prop :=
  (resolve_grounding_supports m = [] ∧
   (truthy (info_text (chunk_to_info (Z.of_nat n) chunk)) = true
    ∨ ∃ t, info_title (chunk_to_info (Z.of_nat n) chunk) = Some t
           ∧ truthy t = true))
  ∨ ∃ s, s ∈ resolve_grounding_supports m ∧ Z.of_nat n ∈ chunk_indices_of s.

(** The citation the branch taken builds from a chunk's info: lines 244-248
    without supports, lines 261-265 with supports. *)
Definition branch_citation (m : GroundingMetadata) : ChunkInfo → Citation :=
  if decide (resolve_grounding_supports m = [])
  then direct_citation else support_citation.

(** The response reaches line 193: it has a first candidate and that
    candidate carries a grounding metadata object. *)
Definition has_metadata (r : Response) : Prop :=
  ∃ cand rest m,
    candidates r = Attr (Py (cand :: rest)) ∧
    getattr (grounding_metadata cand) PyNone = Py m.

(** ** Printing and the other front ends *)

(** ["\n"]. *)
Definition newline : str := [10%N].

(** [s * n] on a [str]. *)
Fixpoint str_repeat (s : str) (n : nat) : str :=
  match n with
  | O => []
  | S n' => s ++ str_repeat s n'
  end.

(** [str(v)], also what [print(v)] and [f"{v}"] show, for a [str] or [None]. *)
Definition py_str (v : value str) : str :=
  match v with
  | PyNone => lit "None"
  | Py s => s
  end.

(** [f"{i}"] for an integer. *)
Definition int_str (i : Z) : str := lit (pretty i).

(** [s.startswith(prefix)]. *)
Fixpoint startswith (prefix s : str) : bool :=
  match prefix, s with
  | [], _ => true
  | a :: prefix', b :: s' =>
      if decide (a = b) then startswith prefix' s' else false
  | _ :: _, [] => false
  end.

Module Api.

(** A store of the remote service; the client's model always has both
    attributes, possibly [None]. *)
Record FileSearchStore := {
  name : value str;
  display_name : value str;
}.

(** What iterating [client.file_search_stores.list()] does: it yields
    stores one by one and either ends or raises; [message] is [str(e)]. *)
Inductive listing :=
  | Exhausted
  | Next (store : FileSearchStore) (rest : listing)
  | Failed (message : str).

(** The stores the iteration yields before it ends or raises. *)
Fixpoint yielded (stores : listing) : list FileSearchStore :=
  match stores with
  | Next store rest => store :: yielded rest
  | _ => []
  end.

(** The iteration that yields [stores] and then goes on as [rest]. *)
Fixpoint followed_by (stores : list FileSearchStore) (rest : listing)
  : listing :=
  match stores with
  | [] => rest
  | store :: stores' => Next store (followed_by stores' rest)
  end.

End Api.

(** *** setup.py *)

Module Setup.

(** Lines 41-49.  The result is what was printed and what is returned; an
    exception of the iteration is caught, reported and turned into [None]. *)
Fixpoint find_existing_store (stores : Api.listing) (wanted : str)
  : list str * option Api.FileSearchStore :=
  match stores with
  | Api.Exhausted => ([], None)
  | Api.Failed e => ([lit "Error listing stores: " ++ e], None)
  | Api.Next store rest =>
      if decide (Api.display_name store = Py wanted)
      then ([], Some store)
      else find_existing_store rest wanted
  end.

End Setup.

(** *** file_search_guides.py *)

Module FileSearchGuides.

(** Lines 41-50: as in setup.py, and the store found is announced. *)
Fixpoint find_existing_store (stores : Api.listing) (wanted : str)
  : list str * option Api.FileSearchStore :=
  match stores with
  | Api.Exhausted => ([], None)
  | Api.Failed e => ([lit "Error listing stores: " ++ e], None)
  | Api.Next store rest =>
      if decide (Api.display_name store = Py wanted)
      then ([lit "Found existing store: " ++ py_str (Api.name store)],
            Some store)
      else find_existing_store rest wanted
  end.

(** Line 130: [chunk.text[:200] + "..." if len(chunk.text) > 200 else
    chunk.text]. *)
Definition snippet_of (t : str) : str :=
  if decide (200 < length t)%nat
  then slice_to 200 t ++ lit "..."
  else t.

(** Lines 124-131: what the loop prints for chunk number [i]. *)
Definition print_chunk (i : Z) (chunk : GroundingChunk) : list str :=
  match retrieved_context chunk with
  | NoAttr => []
  | Attr ctx =>
      let title_ :=
        match ctx with
        | Py c => getattr (title c) (Py (lit "Unknown"))
        | PyNone => Py (lit "Unknown")
        end in
      (newline ++ lit "[" ++ int_str i ++ lit "] Source: " ++ py_str title_)
      :: match text chunk with
         | Attr (Py t) =>
             if truthy t then [lit "    Text: " ++ snippet_of t] else []
         | _ => []
         end
  end.

(** Lines 123-131: [enumerate(metadata.grounding_chunks, 1)]. *)
Definition print_chunks (chunks : list GroundingChunk) : list str :=
  enumerate_from 1 chunks ≫= λ ic, print_chunk ic.1 ic.2.

(** Lines 111-114: the lines printed before the answer. *)
Definition answer_banner : list str :=
  [newline ++ str_repeat (lit "=") 80; lit "ANSWER:"; str_repeat (lit "=") 80].

(** Lines 120-122. *)
Definition citations_banner : list str :=
  [newline ++ str_repeat (lit "-") 80; lit "CITATIONS:";
   str_repeat (lit "-") 80].

(** Lines 109-131.  The result is the list of printed lines, one per call
    of [print], and the exception that ended the function, if any.
    [response.text], [response.candidates] and [.grounding_metadata] are
    plain attribute accesses. *)
Definition print_response_with_citations (response : Response)
  : list str * option exn :=
  match response_text response with
  | NoAttr => (answer_banner, Some (AttributeError "text"))
  | Attr t =>
      let out := answer_banner ++ [py_str t] in
      match candidates response with
      | NoAttr => (out, Some (AttributeError "candidates"))
      | Attr PyNone | Attr (Py []) => (out, None)
      | Attr (Py (candidate :: _)) =>
          match grounding_metadata candidate with
          | NoAttr => (out, Some (AttributeError "grounding_metadata"))
          | Attr PyNone => (out, None)
          | Attr (Py metadata) =>
              match grounding_chunks metadata with
              | Attr (Py (chunk :: chunks)) =>
                  (out ++ citations_banner ++ print_chunks (chunk :: chunks),
                   None)
              | _ => (out, None)
              end
          end
      end
  end.

End FileSearchGuides.

(** *** app.py, besides [extract_citations] *)

(** What [prompt_for_store_name] does after drawing the form: [st.rerun()],
    [st.error(...)], [st.warning(...)] or nothing. *)
Inductive prompt_outcome :=
  | Rerun
  | ShowError
  | ShowWarning
  | Idle.

(** Lines 131-144.  [store_name] is what the text input holds, [pressed]
    whether the button was clicked; the state is [st.session_state]. *)
Definition prompt_for_store_name (session_state : gmap string (value str))
    (store_name : str) (pressed : bool)
  : gmap string (value str) * prompt_outcome :=
  if pressed then
    if truthy store_name && startswith (lit "fileSearchStores/") store_name
    then (<["user_store_name" := Py store_name]> session_state, Rerun)
    else if truthy store_name then (session_state, ShowError)
    else (session_state, ShowWarning)
  else (session_state, Idle).

(** The session state holds no store name, or one that passed the check of
    line 138. *)
Definition gated (session_state : gmap string (value str)) : Prop :=
  ∀ v, session_state !! "user_store_name" = Some v →
       ∃ rest, v = Py (lit "fileSearchStores/" ++ rest).

(** The dictionary [load_config] builds at lines 95-102 and 106-113. *)
Record FallbackConfig := {
  store_name : value str;
  store_display_name : str;
  pdf_files : list str;
}.

(** What [load_config] returns: the parsed content of the file as it is, or
    one of the dictionaries above, or [None]. *)
Inductive Config (J : Type) : Type :=
  | FromFile (content : J)
  | Fallback (config : FallbackConfig).
Arguments FromFile {J} content.
Arguments Fallback {J} config.

Definition fallback_config (store : value str) : FallbackConfig :=
  {| store_name := store;
     store_display_name := lit "GSPP-User-Guides";
     pdf_files := [lit "GSPP Job Planning User Guide";
                   lit "GSPP Sweet Editor User Guide"] |}.

(** What opening and parsing the configuration file gives when the file
    exists: its content, or the exception [open] or [json.load] raised. *)
Inductive file_read (J : Type) : Type :=
  | Parsed (content : J)
  | Unreadable (message : str).
Arguments Parsed {J} content.
Arguments Unreadable {J} message.

(** What the test ['STORE_NAME' in st.secrets] of line 94 meets: the secrets
    of the app as a mapping, or the exception Streamlit raises when it finds
    no secrets file or cannot parse it. *)
Inductive secrets_read :=
  | SecretsMap (secrets : gmap string (value str))
  | SecretsUnavailable (message : str).

(** A returned value or the message of the exception that escaped. *)
Inductive outcome (A : Type) : Type :=
  | Returns (a : A)
  | Raises (message : str).
Arguments Returns {A} a.
Arguments Raises {A} message.

(** Lines 104-115: the configuration taken from the session state. *)
Definition session_config {J} (session_state : gmap string (value str))
  : option (Config J) :=
  match session_state !! "user_store_name" with
  | Some store =>
      if truthy store then Some (Fallback (fallback_config store)) else None
  | None => None
  end.

(** Lines 86-115.  [config_file] is [None] when the configuration file does
    not exist; [secrets] is [None] when [st] has no attribute [secrets], and
    else what reading the secrets gives; [session_state] is the session
    state. *)
Definition load_config {J} (config_file : option (file_read J))
    (secrets : option secrets_read)
    (session_state : gmap string (value str))
  : outcome (option (Config J)) :=
  match config_file with
  | Some (Parsed content) => Returns (Some (FromFile content))
  | Some (Unreadable e) => Raises e
  | None =>
      match secrets with
      | Some (SecretsUnavailable e) => Raises e
      | Some (SecretsMap m) =>
          match m !! "STORE_NAME" with
          | Some store => Returns (Some (Fallback (fallback_config store)))
          | None => Returns (session_config session_state)
          end
      | None => Returns (session_config session_state)
      end
  end.

(** Lines 348-358 of [main]: the dictionary shown under "Raw Grounding
    Metadata", [None] when nothing is shown.  [str_chunk] and [str_support]
    stand for [str] on the objects of the service. *)
Definition raw_grounding_output {S} (str_chunk : GroundingChunk → S)
    (str_support : GroundingSupport → S) (response : Response)
  : result (option (list S * list S)) :=
  match candidates response with
  | NoAttr => Raise (AttributeError "candidates")
  | Attr PyNone | Attr (Py []) => Ok None
  | Attr (Py (candidate :: _)) =>
      match grounding_metadata candidate with
      | NoAttr => Raise (AttributeError "grounding_metadata")
      | Attr PyNone => Ok None
      | Attr (Py metadata) =>
          let chunks := or_else (getattr (grounding_chunks metadata) (Py [])) [] in
          let supports :=
            or_else (getattr (grounding_supports metadata) (Py [])) [] in
          Ok (Some (if truthy chunks then str_chunk <$> chunks else [],
                    if truthy supports then str_support <$> supports else []))
      end
  end.

(** ** Lemmas on the loops *)

Lemma dedup_fold cs : ∀ seen acc,
  snd (fold_left dedup_step cs (seen, acc)) = acc ++ dedup_from seen cs.
Proof.
  induction cs as [|c cs IH]; intros seen acc; simpl.
  - by rewrite app_nil_r.
  - destruct (decide (dedup_key c ∈ seen)); rewrite IH; [done|].
    by rewrite <- app_assoc.
Qed.

Lemma deduplicate_dedup_from cs : deduplicate cs = dedup_from ∅ cs.
Proof. unfold deduplicate. by rewrite dedup_fold. Qed.

Lemma dedup_from_elem cs : ∀ seen c,
  c ∈ dedup_from seen cs → c ∈ cs ∧ dedup_key c ∉ seen.
Proof.
  induction cs as [|c' cs IH]; intros seen c; simpl.
  - by intros ?%elem_of_nil.
  - destruct (decide (dedup_key c' ∈ seen)) as [Hin|Hout].
    + intros H. apply IH in H as [? ?].
      split; [by apply elem_of_cons; right | done].
    + intros [->|H]%elem_of_cons.
      * split; [apply elem_of_cons; by left | done].
      * apply IH in H as [? ?].
        split; [by apply elem_of_cons; right | set_solver].
Qed.

Lemma dedup_from_NoDup cs : ∀ seen, NoDup (dedup_key <$> dedup_from seen cs).
Proof.
  induction cs as [|c cs IH]; intros seen; simpl.
  - constructor.
  - destruct (decide (dedup_key c ∈ seen)); [apply IH|].
    rewrite fmap_cons. constructor; [|apply IH].
    intros (c' & Hk & Hc')%list_elem_of_fmap.
    apply dedup_from_elem in Hc' as [_ Hc'].
    apply Hc'. rewrite <- Hk. set_solver.
Qed.

(** Every key of the input not yet seen survives the loop. *)
Lemma dedup_from_key_kept cs : ∀ seen c,
  c ∈ cs → dedup_key c ∉ seen →
  dedup_key c ∈ dedup_key <$> dedup_from seen cs.
Proof.
  induction cs as [|c' cs IH]; intros seen c; simpl.
  - by intros ?%elem_of_nil.
  - intros [->|Hin]%elem_of_cons Hout.
    + destruct (decide (dedup_key c' ∈ seen)); [done|].
      rewrite fmap_cons. apply elem_of_cons. by left.
    + destruct (decide (dedup_key c' ∈ seen)); [by apply IH|].
      rewrite fmap_cons.
      destruct (decide (dedup_key c = dedup_key c')) as [Heq|Hne].
      * apply elem_of_cons. by left.
      * apply elem_of_cons. right. apply IH; [done | set_solver].
Qed.

(** A list without duplicate keys, none of them seen, passes unchanged. *)
Lemma dedup_from_fixed cs : ∀ seen,
  NoDup (dedup_key <$> cs) → (∀ c, c ∈ cs → dedup_key c ∉ seen) →
  dedup_from seen cs = cs.
Proof.
  induction cs as [|c cs IH]; intros seen Hnd Hfresh; simpl; [done|].
  rewrite fmap_cons in Hnd. apply NoDup_cons in Hnd as [Hc Hnd].
  rewrite decide_False by (apply Hfresh, elem_of_cons; by left).
  f_equal. apply IH; [done|].
  intros c' Hc'. apply not_elem_of_union. split.
  - intros Heq%elem_of_singleton. apply Hc. rewrite <- Heq.
    by apply list_elem_of_fmap_2.
  - apply Hfresh, elem_of_cons. by right.
Qed.

Lemma deduplicate_idempotent cs : deduplicate (deduplicate cs) = deduplicate cs.
Proof.
  rewrite !deduplicate_dedup_from.
  apply dedup_from_fixed; [apply dedup_from_NoDup | set_solver].
Qed.

(** The loop computes the specification's first occurrences. *)
Lemma dedup_from_first_occurrences cs : ∀ seen before,
  (∀ k, k ∈ seen ↔ k ∈ dedup_key <$> before) →
  dedup_from seen cs =
  mjoin (imap (λ i c,
                 if decide (dedup_key c ∈ dedup_key <$> (before ++ take i cs))
                 then [] else [c]) cs).
Proof.
  induction cs as [|c cs IH]; intros seen before Hseen; [done|].
  rewrite imap_cons. simpl. rewrite app_nil_r.
  rewrite (imap_ext _ (λ i c0,
    if decide (dedup_key c0 ∈ dedup_key <$> ((before ++ [c]) ++ take i cs))
    then [] else [c0])); last first.
  { intros i x _. simpl. by rewrite <- app_assoc. }
  destruct (decide (dedup_key c ∈ seen)) as [Hin|Hout].
  - rewrite decide_True by (by apply Hseen). simpl.
    apply IH. intros k. rewrite fmap_app, elem_of_app, <- Hseen. set_solver.
  - rewrite decide_False by (by rewrite <- Hseen). simpl. f_equal.
    apply IH. intros k. rewrite fmap_app, elem_of_app, <- Hseen. set_solver.
Qed.

(** The slice of the code is the [take] of the specification. *)
Lemma slice_to_take n : ∀ s, slice_to n s = take n s.
Proof.
  induction n as [|n IH]; intros [|c s]; simpl; f_equal; auto.
Qed.

(** The key the code computes at line 271 is the key of the specification. *)
Lemma dedup_key_citation_key c : dedup_key c = citation_key c.
Proof.
  unfold dedup_key, citation_key, text_prefix, first_100_characters.
  f_equal. destruct (source_text c) as [|[|a s]]; [done | done |].
  apply slice_to_take.
Qed.

Lemma dedup_keys_citation_keys (l : list Citation) :
  dedup_key <$> l = citation_key <$> l.
Proof. apply list_fmap_ext. intros i c _. apply dedup_key_citation_key. Qed.

Lemma deduplicate_first_occurrences cs :
  deduplicate cs = first_occurrences cs.
Proof.
  rewrite deduplicate_dedup_from.
  rewrite (dedup_from_first_occurrences cs ∅ []); last first.
  { intros k. split; [by intros ?%elem_of_empty | by intros ?%elem_of_nil]. }
  unfold first_occurrences. f_equal. apply imap_ext. intros i c _. simpl.
  by rewrite dedup_key_citation_key, dedup_keys_citation_keys.
Qed.

Lemma deduplicate_NoDup cs : NoDup (dedup_key <$> deduplicate cs).
Proof. rewrite deduplicate_dedup_from. apply dedup_from_NoDup. Qed.

(** In a list without duplicate keys a key that occurs, occurs once. *)
Lemma NoDup_key_count (l : list Citation) k :
  NoDup (dedup_key <$> l) → k ∈ dedup_key <$> l →
  length (filter (λ c, dedup_key c = k) l) = 1.
Proof.
  induction l as [|c l IH]; [by intros _ ?%elem_of_nil|].
  rewrite fmap_cons. intros [Hc Hnd]%NoDup_cons Hin.
  rewrite filter_cons. destruct (decide (dedup_key c = k)) as [Heq|Hne].
  - simpl. f_equal. apply length_zero_iff_nil, elem_of_nil_inv.
    intros c' [Hk Hc']%list_elem_of_filter. apply Hc.
    rewrite Heq, <- Hk. by apply list_elem_of_fmap_2.
  - apply IH; [done|]. apply elem_of_cons in Hin as [Hk|Hin]; [|done].
    by destruct Hne.
Qed.

Lemma deduplicate_key_once cs c :
  c ∈ cs → length (filter (λ c', dedup_key c' = dedup_key c) (deduplicate cs)) = 1.
Proof.
  intros Hc. apply NoDup_key_count; [apply deduplicate_NoDup|].
  rewrite deduplicate_dedup_from.
  apply dedup_from_key_kept; [done | set_solver].
Qed.

(** *** The chunk map *)

Lemma infos_from_cons i c chunks :
  infos_from i (c :: chunks)
  = (i, chunk_to_info i c) :: infos_from (i + 1) chunks.
Proof. done. Qed.

Lemma dict_set_fresh {V} k (v : V) d :
  (∀ k' v', (k', v') ∈ d → k' ≠ k) → dict_set k v d = d ++ [(k, v)].
Proof.
  induction d as [|[k' v'] d IH]; intros Hfresh; simpl; [done|].
  rewrite decide_False.
  - f_equal. apply IH. intros k'' v'' Hin.
    apply (Hfresh k'' v''), elem_of_cons. by right.
  - intros ->. eapply Hfresh; [apply elem_of_cons; by left | done].
Qed.

Lemma chunk_loop_fst chunks : ∀ i acc dbg,
  (∀ k v, (k, v) ∈ acc → (k < i)%Z) →
  fst (fold_left chunk_step (enumerate_from i chunks) (acc, dbg))
  = acc ++ infos_from i chunks.
Proof.
  induction chunks as [|c chunks IH]; intros i acc dbg Hacc; simpl.
  - unfold infos_from. simpl. by rewrite app_nil_r.
  - rewrite dict_set_fresh.
    + rewrite IH.
      * unfold infos_from. simpl. by rewrite <- app_assoc.
      * intros k v [Hin|Hin]%elem_of_app.
        -- apply Hacc in Hin. lia.
        -- apply list_elem_of_singleton in Hin. injection Hin as -> _. lia.
    + intros k' v' Hin%Hacc. lia.
Qed.

Lemma build_chunk_info_fst chunks dbg :
  fst (build_chunk_info chunks dbg) = chunk_info_of chunks.
Proof.
  unfold build_chunk_info, enumerate. rewrite chunk_loop_fst; [done|].
  by intros k v ?%elem_of_nil.
Qed.

(** The loop touches only the keys [chunk_<i>_attrs] of [debug_info]. *)
Lemma chunk_loop_snd chunks key : ∀ i acc (dbg : gmap string DebugValue),
  (∀ n : Z, key ≠ "chunk_" +:+ pretty n +:+ "_attrs") →
  snd (fold_left chunk_step (enumerate_from i chunks) (acc, dbg)) !! key
  = dbg !! key.
Proof.
  induction chunks as [|c chunks IH]; intros i acc dbg Hkey; simpl; [done|].
  rewrite IH by done. apply lookup_insert_ne. intros Heq. by apply (Hkey i).
Qed.

(** [idx in chunk_info] and [chunk_info[idx]] in terms of the chunk list. *)
Lemma dict_get_infos_from chunks : ∀ i idx,
  dict_get idx (infos_from i chunks)
  = if decide (i ≤ idx)%Z
    then chunk_to_info idx <$> chunks !! Z.to_nat (idx - i)
    else None.
Proof.
  induction chunks as [|c chunks IH]; intros i idx.
  - simpl. by destruct (decide (i ≤ idx)%Z).
  - rewrite infos_from_cons. simpl.
    destruct (decide (idx = i)) as [->|Hne].
    + rewrite decide_True by lia. by replace (i - i)%Z with 0%Z by lia.
    + rewrite IH.
      destruct (decide (i ≤ idx)%Z) as [Hle|Hgt].
      * rewrite decide_True by lia.
        replace (Z.to_nat (idx - i)) with (S (Z.to_nat (idx - (i + 1)))) by lia.
        done.
      * by rewrite decide_False by lia.
Qed.

Lemma dict_get_chunk_info_of chunks idx :
  dict_get idx (chunk_info_of chunks)
  = if decide (0 ≤ idx)%Z
    then chunk_to_info idx <$> chunks !! Z.to_nat idx
    else None.
Proof.
  unfold chunk_info_of. rewrite dict_get_infos_from.
  by replace (idx - 0)%Z with idx by lia.
Qed.

Lemma dict_get_out_of_range chunks idx :
  (idx < 0 ∨ Z.of_nat (length chunks) ≤ idx)%Z →
  dict_get idx (chunk_info_of chunks) = None.
Proof.
  intros Hrange. rewrite dict_get_chunk_info_of.
  destruct (decide (0 ≤ idx)%Z); [|done].
  rewrite lookup_ge_None_2; [done | lia].
Qed.

Lemma infos_from_snd chunks : ∀ i,
  snd <$> infos_from i chunks
  = imap (λ n chunk, chunk_to_info (i + Z.of_nat n) chunk) chunks.
Proof.
  induction chunks as [|c chunks IH]; intros i; [done|].
  rewrite infos_from_cons, fmap_cons, imap_cons, IH. simpl.
  f_equal; [f_equal; lia|].
  apply imap_ext. intros n x _. simpl. f_equal. lia.
Qed.

Lemma chunk_info_of_snd chunks : snd <$> chunk_info_of chunks = chunk_infos chunks.
Proof. apply infos_from_snd. Qed.

(** *** The two branches *)

Lemma direct_loop (chunk_info : list (Z * ChunkInfo)) : ∀ acc,
  fold_left
    (λ citations '(i, info),
       if citable info then citations ++ [direct_citation info] else citations)
    chunk_info acc
  = acc ++ (direct_citation <$>
            filter (λ info, citable info = true) (snd <$> chunk_info)).
Proof.
  induction chunk_info as [|[i info] ci IH]; intros acc; simpl.
  - by rewrite app_nil_r.
  - rewrite IH, filter_cons. simpl.
    destruct (decide (citable info = true)) as [Hc|Hc].
    + by rewrite Hc, fmap_cons, <- app_assoc.
    + apply not_true_is_false in Hc. by rewrite Hc.
Qed.

Lemma direct_citations_closed chunks :
  direct_citations (chunk_info_of chunks)
  = direct_citation <$> filter (λ info, citable info = true) (chunk_infos chunks).
Proof.
  unfold direct_citations. by rewrite direct_loop, chunk_info_of_snd.
Qed.

Lemma index_loop chunk_info indices : ∀ acc,
  fold_left (index_step chunk_info) indices acc
  = acc ++ (indices ≫= cite_index chunk_info).
Proof.
  induction indices as [|idx indices IH]; intros acc; simpl.
  - by rewrite app_nil_r.
  - rewrite IH. unfold index_step, cite_index.
    destruct (dict_get idx chunk_info); simpl; [by rewrite <- app_assoc | done].
Qed.

Lemma support_loop chunk_info supports : ∀ acc,
  fold_left
    (λ citations support,
       fold_left (index_step chunk_info) (chunk_indices_of support) citations)
    supports acc
  = acc ++ (supports ≫= λ s, chunk_indices_of s ≫= cite_index chunk_info).
Proof.
  induction supports as [|s supports IH]; intros acc; simpl.
  - by rewrite app_nil_r.
  - by rewrite IH, index_loop, <- app_assoc.
Qed.

Lemma support_citations_closed chunk_info supports :
  support_citations chunk_info supports
  = supports ≫= λ s, chunk_indices_of s ≫= cite_index chunk_info.
Proof. unfold support_citations. by rewrite support_loop. Qed.

(** *** The whole function *)

Lemma extract_from_metadata_fst m :
  fst (extract_from_metadata m) = deduplicate (metadata_candidates m).
Proof.
  unfold extract_from_metadata, metadata_candidates.
  match goal with
  | |- context [build_chunk_info ?c ?d] =>
      pose proof (build_chunk_info_fst c d) as Hfst;
      destruct (build_chunk_info c d) as [ci dbg]
  end.
  simpl in *. by subst ci.
Qed.

Lemma chunk_key_ne (key : string) :
  (∀ c s, key ≠ String c s ∨ c ≠ "c"%char) →
  ∀ n : Z, key ≠ "chunk_" +:+ pretty n +:+ "_attrs".
Proof.
  intros Hkey n Heq. simpl in Heq.
  destruct (Hkey "c"%char ("hunk_" +:+ pretty n +:+ "_attrs")) as [H|H];
    by apply H.
Qed.

Lemma extract_from_metadata_snd m key :
  (∀ n : Z, key ≠ "chunk_" +:+ pretty n +:+ "_attrs") →
  snd (extract_from_metadata m) !! key = debug_info_before_chunks m !! key.
Proof.
  intros Hkey. unfold extract_from_metadata.
  match goal with
  | |- context [build_chunk_info ?c ?d] =>
      pose proof (chunk_loop_snd c key 0%Z [] d Hkey) as Hsnd;
      fold (enumerate c) in Hsnd; fold (build_chunk_info c d) in Hsnd;
      destruct (build_chunk_info c d) as [ci dbg]
  end.
  simpl in *. rewrite Hsnd. unfold debug_info_before_chunks.
  assert (Hlen : ∀ {A} (l : list A),
    (if truthy l then Z.of_nat (length l) else 0%Z) = Z.of_nat (length l)).
  { by intros A [|x l]. }
  by rewrite !Hlen.
Qed.

Lemma extract_citations_head r sd cand rest :
  candidates r = Attr (Py (cand :: rest)) →
  extract_citations r sd = Ok (extract_from_candidate cand).
Proof. unfold extract_citations. by intros ->. Qed.

Lemma extract_citations_metadata r sd cand rest m :
  candidates r = Attr (Py (cand :: rest)) →
  grounding_metadata cand = Attr (Py m) →
  extract_citations r sd = Ok (extract_from_metadata m).
Proof.
  intros Hr Hm. rewrite (extract_citations_head r sd cand rest Hr).
  unfold extract_from_candidate. by rewrite Hm.
Qed.

Lemma extract_from_candidate_fst cand :
  fst (extract_from_candidate cand)
  = deduplicate (match getattr (grounding_metadata cand) PyNone with
                 | Py m => metadata_candidates m
                 | PyNone => []
                 end).
Proof.
  unfold extract_from_candidate.
  destruct (getattr (grounding_metadata cand) PyNone) as [|m]; [done|].
  apply extract_from_metadata_fst.
Qed.

Lemma first_non_falsy_resolve {A} (primary alternate : attr (list A)) :
  or_else (py_or (getattr primary PyNone) (getattr alternate PyNone)) []
  = first_non_falsy primary alternate.
Proof.
  destruct primary as [|[|[|x l]]], alternate as [|[|[|y k]]]; reflexivity.
Qed.

Lemma branch_with_supports chunks supports ci :
  supports ≠ [] →
  branch_citations chunks supports ci
  = supports ≫= λ s, chunk_indices_of s ≫= cite_index ci.
Proof.
  intros Hs. unfold branch_citations.
  destruct supports as [|s supports]; [done|].
  replace (truthy chunks && negb (truthy (s :: supports))) with false
    by (by destruct (truthy chunks)).
  apply support_citations_closed.
Qed.

Lemma branch_without_supports chunks :
  chunks ≠ [] →
  branch_citations chunks [] (chunk_info_of chunks)
  = direct_citation <$> filter (λ info, citable info = true) (chunk_infos chunks).
Proof.
  intros Hc. unfold branch_citations.
  destruct chunks as [|c chunks]; [done|]. simpl.
  apply direct_citations_closed.
Qed.

Lemma cite_index_elem ci idx c :
  c ∈ cite_index ci idx →
  ∃ info, dict_get idx ci = Some info ∧ c = support_citation info.
Proof.
  unfold cite_index. destruct (dict_get idx ci) as [info|].
  - intros ->%list_elem_of_singleton. by exists info.
  - by intros ?%elem_of_nil.
Qed.

Lemma chunk_infos_lookup chunks n :
  chunk_infos chunks !! n = chunk_to_info (Z.of_nat n) <$> chunks !! n.
Proof. unfold chunk_infos. by rewrite list_lookup_imap. Qed.

(** ** The properties of the specification *)

(** C1: for every response (one that has a [candidates] attribute, so that
    the function returns), the citation list returned by [extract_citations]
    has no two citations with the same key (title, first 100 characters of
    source_text), and it is exactly the list of first occurrences of each key
    in the candidate sequence of the branch taken, in their original order. *)
Theorem extract_citations_first_occurrences (r : Response) (sd : bool) :
  candidates r ≠ NoAttr →
  ∃ cits dbg,
    extract_citations r sd = Ok (cits, dbg) ∧
    NoDup (citation_key <$> cits) ∧
    (∀ i j ci cj,
       cits !! i = Some ci → cits !! j = Some cj → i ≠ j →
       cit_title ci ≠ cit_title cj
       ∨ first_100_characters (source_text ci)
         ≠ first_100_characters (source_text cj)) ∧
    cits = first_occurrences (response_candidates r).
Proof.
  intros Hr.
  assert (Hout : ∃ cits dbg,
    extract_citations r sd = Ok (cits, dbg) ∧
    NoDup (citation_key <$> cits) ∧
    cits = first_occurrences (response_candidates r)).
  { unfold extract_citations, response_candidates.
    destruct (candidates r) as [|[|[|cand rest]]]; [done|..].
    - eexists _, _. split; [done|]. split; [constructor | done].
    - eexists _, _. split; [done|]. split; [constructor | done].
    - exists (fst (extract_from_candidate cand)),
             (snd (extract_from_candidate cand)).
      split; [by destruct (extract_from_candidate cand)|].
      rewrite extract_from_candidate_fst.
      split; [|apply deduplicate_first_occurrences].
      rewrite <- dedup_keys_citation_keys. apply deduplicate_NoDup. }
  destruct Hout as (cits & dbg & Hex & Hnd & Hfirst).
  exists cits, dbg. split; [done|]. split; [done|]. split; [|done].
  intros i j ci cj Hi Hj Hij.
  destruct (decide (cit_title ci = cit_title cj)) as [Ht|]; [|by left].
  right. intros Hp. apply Hij.
  apply (NoDup_lookup _ i j (citation_key ci) Hnd).
  - by rewrite list_lookup_fmap, Hi.
  - rewrite list_lookup_fmap, Hj. simpl. unfold citation_key.
    by rewrite Ht, Hp.
Qed.

Lemma extract_citations_first_occurrences_witness :
  let r := grounded_response
             [chunk_titled "A" (dashes ++ lit " one");
              chunk_titled "A" (dashes ++ lit " two");
              chunk_titled "B" (dashes ++ lit " one");
              chunk_titled "A" (take 99 dashes ++ lit " one")] [] in
  let cits := [citation_titled "A" (dashes ++ lit " one");
               citation_titled "B" (dashes ++ lit " one");
               citation_titled "A" (take 99 dashes ++ lit " one")] in
  response_candidates r
  = [citation_titled "A" (dashes ++ lit " one");
     citation_titled "A" (dashes ++ lit " two");
     citation_titled "B" (dashes ++ lit " one");
     citation_titled "A" (take 99 dashes ++ lit " one")] ∧
  ∃ dbg,
    extract_citations r false = Ok (cits, dbg) ∧
    NoDup (citation_key <$> cits) ∧
    (∀ i j ci cj,
       cits !! i = Some ci → cits !! j = Some cj → i ≠ j →
       cit_title ci ≠ cit_title cj
       ∨ first_100_characters (source_text ci)
         ≠ first_100_characters (source_text cj)) ∧
    cits = first_occurrences (response_candidates r).
Proof.
  intros r cits. split; [vm_compute; reflexivity|].
  destruct (extract_citations_first_occurrences r false)
    as (cits' & dbg & Hex & Hnd & Hpair & Hfirst).
  { vm_compute. discriminate. }
  assert (Hcits : cits' = cits) by (rewrite Hfirst; vm_compute; reflexivity).
  rewrite Hcits in Hex, Hnd, Hpair, Hfirst.
  exists dbg. split; [exact Hex|]. split; [exact Hnd|].
  split; [exact Hpair | exact Hfirst].
Defined.

(** C6: for every response whose candidates list is empty,
    [extract_citations] raises nothing and returns the empty citation list
    together with diagnostics that hold one note under the key "error". *)
Theorem no_candidates_returns_empty (r : Response) (sd : bool) :
  candidates r = Attr (Py []) →
  extract_citations r sd
  = Ok ([], <["error" := DStr "No candidates in response"]> ∅).
Proof. unfold extract_citations. by intros ->. Qed.

Lemma no_candidates_returns_empty_witness :
  extract_citations (response_of []) true
  = Ok ([], <["error" := DStr "No candidates in response"]> ∅).
Proof. apply (no_candidates_returns_empty (response_of []) true). reflexivity. Defined.

(** C5: for every response whose first candidate carries no grounding
    metadata (attribute unset or [None]), [extract_citations] raises nothing
    and returns the empty citation list; the diagnostics hold an explanatory
    note under "error" and, under "candidate_attrs", the attribute names of
    the candidate that [dir] lists and that do not start with an underscore. *)
Theorem no_metadata_returns_diagnostics (r : Response) (sd : bool)
    (cand : Candidate) (rest : list Candidate) :
  candidates r = Attr (Py (cand :: rest)) →
  getattr (grounding_metadata cand) PyNone = PyNone →
  ∃ dbg,
    extract_citations r sd = Ok ([], dbg) ∧
    dbg !! "error" = Some (DStr "No grounding_metadata in candidate") ∧
    dbg !! "candidate_attrs"
      = Some (DNames (public_attrs (candidate_dir cand))) ∧
    (∀ a, a ∈ public_attrs (candidate_dir cand)
          ↔ a ∈ candidate_dir cand ∧ startswith_underscore a = false) ∧
    dom dbg = {["error"; "candidate_attrs"]}.
Proof.
  intros Hr Hm. rewrite (extract_citations_head r sd cand rest Hr).
  unfold extract_from_candidate. rewrite Hm.
  eexists. split; [done|]. split; [|split; [|split]].
  - by rewrite lookup_insert_ne, lookup_insert_eq.
  - by rewrite lookup_insert_eq.
  - intros a. unfold public_attrs. rewrite list_elem_of_filter. tauto.
  - rewrite !dom_insert_L, dom_empty_L. set_solver.
Qed.

Lemma no_metadata_returns_diagnostics_witness :
  ∃ dbg,
    extract_citations (response_of [candidate_of (Attr PyNone)]) false
    = Ok ([], dbg) ∧
    dbg !! "error" = Some (DStr "No grounding_metadata in candidate") ∧
    dbg !! "candidate_attrs"
      = Some (DNames (public_attrs (candidate_dir (candidate_of (Attr PyNone))))) ∧
    (∀ a, a ∈ public_attrs (candidate_dir (candidate_of (Attr PyNone)))
          ↔ a ∈ candidate_dir (candidate_of (Attr PyNone))
            ∧ startswith_underscore a = false) ∧
    dom dbg = {["error"; "candidate_attrs"]}.
Proof.
  apply (no_metadata_returns_diagnostics
           (response_of [candidate_of (Attr PyNone)]) false
           (candidate_of (Attr PyNone)) []); reflexivity.
Defined.

(** C9: [extract_citations] depends only on the first candidate: two
    responses with non-empty candidate lists and the same first candidate
    return the same citations and the same diagnostics, whatever the later
    candidates (and their grounding metadata) are. *)
Theorem only_first_candidate_matters (r1 r2 : Response) (sd1 sd2 : bool)
    (cand : Candidate) (rest1 rest2 : list Candidate) :
  candidates r1 = Attr (Py (cand :: rest1)) →
  candidates r2 = Attr (Py (cand :: rest2)) →
  extract_citations r1 sd1 = extract_citations r2 sd2 ∧
  ∃ cits dbg, extract_citations r1 sd1 = Ok (cits, dbg).
Proof.
  intros H1 H2.
  rewrite (extract_citations_head r1 sd1 cand rest1 H1).
  rewrite (extract_citations_head r2 sd2 cand rest2 H2).
  split; [done|]. destruct (extract_from_candidate cand); eauto.
Qed.

Lemma only_first_candidate_matters_witness :
  extract_citations
    (response_of [candidate_of (Attr (Py (metadata_of [bare_chunk "X"] [])));
                  candidate_of (Attr (Py (metadata_of [titled_chunk "B" "Y"] [])))])
    false
  = extract_citations
      (response_of [candidate_of (Attr (Py (metadata_of [bare_chunk "X"] [])))])
      true
  ∧ ∃ cits dbg,
      extract_citations
        (response_of [candidate_of (Attr (Py (metadata_of [bare_chunk "X"] [])));
                      candidate_of (Attr (Py (metadata_of [titled_chunk "B" "Y"] [])))])
        false
      = Ok (cits, dbg).
Proof.
  apply (only_first_candidate_matters _ _ false true
           (candidate_of (Attr (Py (metadata_of [bare_chunk "X"] []))))
           [candidate_of (Attr (Py (metadata_of [titled_chunk "B" "Y"] [])))]
           []); reflexivity.
Defined.

(** *** Which citations reach the output *)

Lemma deduplicate_elem cs c : c ∈ deduplicate cs → c ∈ cs.
Proof.
  rewrite deduplicate_dedup_from. intros H. by apply dedup_from_elem in H as [? _].
Qed.

Lemma deduplicate_represents cs c :
  c ∈ cs → ∃ c', c' ∈ deduplicate cs ∧ dedup_key c' = dedup_key c.
Proof.
  intros Hc. rewrite deduplicate_dedup_from.
  assert (Hk : dedup_key c ∈ dedup_key <$> dedup_from ∅ cs)
    by (apply dedup_from_key_kept; [done | set_solver]).
  apply list_elem_of_fmap in Hk as (c' & Hk & Hc'). by exists c'.
Qed.

Lemma direct_candidate m n chunk :
  resolve_grounding_supports m = [] →
  resolve_grounding_chunks m !! n = Some chunk →
  citable (chunk_to_info (Z.of_nat n) chunk) = true →
  direct_citation (chunk_to_info (Z.of_nat n) chunk) ∈ metadata_candidates m.
Proof.
  intros Hs Hn Hc. unfold metadata_candidates. rewrite Hs.
  rewrite branch_without_supports by (by intros Hnil; rewrite Hnil in Hn).
  apply list_elem_of_fmap_2, list_elem_of_filter. split; [done|].
  apply list_elem_of_lookup. exists n.
  by rewrite chunk_infos_lookup, Hn.
Qed.

Lemma support_candidate m s idx chunk :
  s ∈ resolve_grounding_supports m →
  idx ∈ chunk_indices_of s →
  (0 ≤ idx)%Z →
  resolve_grounding_chunks m !! Z.to_nat idx = Some chunk →
  support_citation (chunk_to_info idx chunk) ∈ metadata_candidates m.
Proof.
  intros Hs Hidx Hpos Hn. unfold metadata_candidates.
  rewrite branch_with_supports by (by intros Hnil; rewrite Hnil in Hs; apply elem_of_nil in Hs).
  apply list_elem_of_bind. exists s. split; [|done].
  apply list_elem_of_bind. exists idx. split; [|done].
  unfold cite_index. rewrite dict_get_chunk_info_of, decide_True by done.
  rewrite Hn. simpl. apply list_elem_of_singleton. done.
Qed.

Lemma support_candidate_inv m c :
  resolve_grounding_supports m ≠ [] →
  c ∈ metadata_candidates m →
  ∃ s idx chunk,
    s ∈ resolve_grounding_supports m ∧ idx ∈ chunk_indices_of s ∧
    (0 ≤ idx)%Z ∧
    resolve_grounding_chunks m !! Z.to_nat idx = Some chunk ∧
    c = support_citation (chunk_to_info idx chunk).
Proof.
  intros Hs. unfold metadata_candidates. rewrite branch_with_supports by done.
  intros (s & Hc & Hin)%list_elem_of_bind.
  apply list_elem_of_bind in Hc as (idx & Hc & Hidx).
  apply cite_index_elem in Hc as (info & Hget & ->).
  rewrite dict_get_chunk_info_of in Hget.
  destruct (decide (0 ≤ idx)%Z) as [Hpos|]; [|done].
  destruct (resolve_grounding_chunks m !! Z.to_nat idx) as [chunk|] eqn:Hn;
    [|done].
  injection Hget as <-. by exists s, idx, chunk.
Qed.

(** C10: a chunk that carries no retrieved-context object under either field
    name gets no title key in its ChunkInfo; the citation built from it has
    the title "Source Document" when the direct-chunk branch emits it and
    "Unknown" when the supports branch emits it, in the output of
    [extract_citations] too. *)
Theorem missing_context_branch_default (r : Response) (sd : bool)
    (cand : Candidate) (rest : list Candidate) (m : GroundingMetadata)
    (n : nat) (chunk : GroundingChunk) :
  candidates r = Attr (Py (cand :: rest)) →
  grounding_metadata cand = Attr (Py m) →
  resolve_grounding_chunks m !! n = Some chunk →
  getattr (retrieved_context chunk) PyNone = PyNone →
  getattr (retrievedContext chunk) PyNone = PyNone →
  let info := chunk_to_info (Z.of_nat n) chunk in
  info_title info = None ∧
  cit_title (direct_citation info) = Py (lit "Source Document") ∧
  cit_title (support_citation info) = Py (lit "Unknown") ∧
  ∃ cits dbg,
    extract_citations r sd = Ok (cits, dbg) ∧
    (resolve_grounding_supports m = [] → citable info = true →
     ∃ c, c ∈ cits ∧ cit_title c = Py (lit "Source Document") ∧
          dedup_key c = dedup_key (direct_citation info)) ∧
    (∀ s, s ∈ resolve_grounding_supports m → Z.of_nat n ∈ chunk_indices_of s →
     ∃ c, c ∈ cits ∧ cit_title c = Py (lit "Unknown") ∧
          dedup_key c = dedup_key (support_citation info)).
Proof.
  intros Hr Hm Hn H1 H2 info.
  assert (Ht : info_title info = None).
  { unfold info, chunk_to_info. by rewrite H1, H2. }
  assert (Hd : cit_title (direct_citation info) = Py (lit "Source Document")).
  { unfold direct_citation. simpl. by rewrite Ht. }
  assert (Hu : cit_title (support_citation info) = Py (lit "Unknown")).
  { unfold support_citation. simpl. by rewrite Ht. }
  split; [done|]. split; [done|]. split; [done|].
  rewrite (extract_citations_metadata r sd cand rest m Hr Hm).
  exists (fst (extract_from_metadata m)), (snd (extract_from_metadata m)).
  split; [by destruct (extract_from_metadata m)|].
  rewrite extract_from_metadata_fst. split.
  - intros Hs Hc.
    destruct (deduplicate_represents (metadata_candidates m)
                (direct_citation info)) as (c & Hin & Hk).
    { by apply direct_candidate. }
    exists c. split; [done|]. split; [|done].
    change (cit_title c) with (fst (dedup_key c)). by rewrite Hk.
  - intros s Hs Hidx.
    destruct (deduplicate_represents (metadata_candidates m)
                (support_citation info)) as (c & Hin & Hk).
    { apply (support_candidate m s (Z.of_nat n) chunk); [done|done|lia|].
      by rewrite Nat2Z.id. }
    exists c. split; [done|]. split; [|done].
    change (cit_title c) with (fst (dedup_key c)). by rewrite Hk.
Qed.

Lemma missing_context_branch_default_witness :
  let m := metadata_of [titled_chunk "A" "X"; bare_chunk "Y"] [support_of [1]%Z] in
  let info := chunk_to_info (Z.of_nat 1) (bare_chunk "Y") in
  info_title info = None ∧
  cit_title (direct_citation info) = Py (lit "Source Document") ∧
  cit_title (support_citation info) = Py (lit "Unknown") ∧
  ∃ cits dbg,
    extract_citations (response_of [candidate_of (Attr (Py m))]) false
    = Ok (cits, dbg) ∧
    (resolve_grounding_supports m = [] → citable info = true →
     ∃ c, c ∈ cits ∧ cit_title c = Py (lit "Source Document") ∧
          dedup_key c = dedup_key (direct_citation info)) ∧
    (∀ s, s ∈ resolve_grounding_supports m → Z.of_nat 1 ∈ chunk_indices_of s →
     ∃ c, c ∈ cits ∧ cit_title c = Py (lit "Unknown") ∧
          dedup_key c = dedup_key (support_citation info)).
Proof.
  intros m info.
  apply (missing_context_branch_default
           (response_of [candidate_of (Attr (Py m))]) false
           (candidate_of (Attr (Py m))) [] m 1 (bare_chunk "Y"));
    reflexivity.
Defined.

(** C3, as the specification states it, fails: a chunk with no retrieved
    context at all has neither title field, and the citation the direct-chunk
    branch emits for it is titled "Source Document" (and "Unknown" in the
    supports branch), not "Unknown Source". *)
Lemma unknown_source_counterexample :
  retrieved_context (bare_chunk "Y") = NoAttr ∧
  retrievedContext (bare_chunk "Y") = NoAttr ∧
  fst <$> (match extract_citations (grounded_response [bare_chunk "Y"] []) false with
           | Ok out => Some out
           | Raise _ => None
           end)
  = Some [{| cit_title := Py (lit "Source Document");
             source_text := Py (lit "Y");
             cit_uri := Py [] |}] ∧
  fst <$> (match extract_citations
                   (grounded_response [bare_chunk "Y"] [support_of [0]%Z]) false with
           | Ok out => Some out
           | Raise _ => None
           end)
  = Some [{| cit_title := Py (lit "Unknown");
             source_text := Py (lit "Y");
             cit_uri := Py [] |}] ∧
  ¬ (∀ (i : Z) (chunk : GroundingChunk),
       py_or (getattr (retrieved_context chunk) PyNone)
             (getattr (retrievedContext chunk) PyNone) = PyNone →
       cit_title (direct_citation (chunk_to_info i chunk)) = Py (lit "Unknown Source")).
Proof.
  split; [done|]. split; [done|].
  split; [by vm_compute|]. split; [by vm_compute|].
  intros H. by specialize (H 0%Z (bare_chunk "Y") eq_refl).
Qed.

(** C3, amended: for every chunk that has a retrieved-context object (under
    either field name) whose title is unset, [None] or empty and which has no
    displayName attribute, the title stored in its ChunkInfo and the title of
    the citation emitted for it, by either branch, is "Unknown Source". *)
Theorem untitled_context_unknown_source (r : Response) (sd : bool)
    (cand : Candidate) (rest : list Candidate) (m : GroundingMetadata)
    (n : nat) (chunk : GroundingChunk) (ctx : RetrievedContext) :
  candidates r = Attr (Py (cand :: rest)) →
  grounding_metadata cand = Attr (Py m) →
  resolve_grounding_chunks m !! n = Some chunk →
  py_or (getattr (retrieved_context chunk) PyNone)
        (getattr (retrievedContext chunk) PyNone) = Py ctx →
  truthy (getattr (title ctx) (Py [])) = false →
  displayName ctx = NoAttr →
  let info := chunk_to_info (Z.of_nat n) chunk in
  info_title info = Some (Py (lit "Unknown Source")) ∧
  cit_title (direct_citation info) = Py (lit "Unknown Source") ∧
  cit_title (support_citation info) = Py (lit "Unknown Source") ∧
  citable info = true ∧
  ∃ cits dbg,
    extract_citations r sd = Ok (cits, dbg) ∧
    (resolve_grounding_supports m = [] →
     ∃ c, c ∈ cits ∧ cit_title c = Py (lit "Unknown Source") ∧
          dedup_key c = dedup_key (direct_citation info)) ∧
    (∀ s, s ∈ resolve_grounding_supports m → Z.of_nat n ∈ chunk_indices_of s →
     ∃ c, c ∈ cits ∧ cit_title c = Py (lit "Unknown Source") ∧
          dedup_key c = dedup_key (support_citation info)).
Proof.
  intros Hr Hm Hn Hctx Htitle Hdisp info.
  assert (Ht : info_title info = Some (Py (lit "Unknown Source"))).
  { unfold info, chunk_to_info. rewrite Hctx. simpl.
    unfold py_or. by rewrite Htitle, Hdisp. }
  assert (Hd : cit_title (direct_citation info) = Py (lit "Unknown Source")).
  { unfold direct_citation. simpl. by rewrite Ht. }
  assert (Hu : cit_title (support_citation info) = Py (lit "Unknown Source")).
  { unfold support_citation. simpl. by rewrite Ht. }
  assert (Hc : citable info = true).
  { unfold citable, py_or.
    destruct (truthy (info_text info)) eqn:Htext; [done|]. by rewrite Ht. }
  split; [done|]. split; [done|]. split; [done|]. split; [done|].
  rewrite (extract_citations_metadata r sd cand rest m Hr Hm).
  exists (fst (extract_from_metadata m)), (snd (extract_from_metadata m)).
  split; [by destruct (extract_from_metadata m)|].
  rewrite extract_from_metadata_fst. split.
  - intros Hs.
    destruct (deduplicate_represents (metadata_candidates m)
                (direct_citation info)) as (c & Hin & Hk).
    { by apply direct_candidate. }
    exists c. split; [done|]. split; [|done].
    change (cit_title c) with (fst (dedup_key c)). by rewrite Hk.
  - intros s Hs Hidx.
    destruct (deduplicate_represents (metadata_candidates m)
                (support_citation info)) as (c & Hin & Hk).
    { apply (support_candidate m s (Z.of_nat n) chunk); [done|done|lia|].
      by rewrite Nat2Z.id. }
    exists c. split; [done|]. split; [|done].
    change (cit_title c) with (fst (dedup_key c)). by rewrite Hk.
Qed.

Lemma untitled_context_unknown_source_witness :
  let chunk := chunk_with (Attr (Py context_untitled)) (Attr (Py [])) in
  let m := metadata_of [chunk] [] in
  let info := chunk_to_info (Z.of_nat 0) chunk in
  info_title info = Some (Py (lit "Unknown Source")) ∧
  cit_title (direct_citation info) = Py (lit "Unknown Source") ∧
  cit_title (support_citation info) = Py (lit "Unknown Source") ∧
  citable info = true ∧
  ∃ cits dbg,
    extract_citations (response_of [candidate_of (Attr (Py m))]) false
    = Ok (cits, dbg) ∧
    (resolve_grounding_supports m = [] →
     ∃ c, c ∈ cits ∧ cit_title c = Py (lit "Unknown Source") ∧
          dedup_key c = dedup_key (direct_citation info)) ∧
    (∀ s, s ∈ resolve_grounding_supports m → Z.of_nat 0 ∈ chunk_indices_of s →
     ∃ c, c ∈ cits ∧ cit_title c = Py (lit "Unknown Source") ∧
          dedup_key c = dedup_key (support_citation info)).
Proof.
  intros chunk m info.
  apply (untitled_context_unknown_source
           (response_of [candidate_of (Attr (Py m))]) false
           (candidate_of (Attr (Py m))) [] m 0 chunk context_untitled);
    reflexivity.
Defined.

Lemma citable_iff info :
  citable info = true
  ↔ truthy (info_text info) = true
    ∨ ∃ t, info_title info = Some t ∧ truthy t = true.
Proof.
  unfold citable, py_or.
  destruct (truthy (info_text info)) eqn:Htext.
  - split; [by left | done].
  - destruct (info_title info) as [t|]; simpl.
    + split; [intros Ht; right; by exists t|].
      intros [?|(t' & [= <-] & Ht)]; done.
    + split; [done|]. by intros [?|(t' & ? & _)].
Qed.

(** C2: when the metadata holds at least one support, the direct-chunk
    branch contributes nothing: the output is the deduplicated list built
    from the supports alone, and every citation in it comes from a chunk
    index some support references.  When there are no supports but there are
    chunks, the candidate list is made of the citations of the chunks whose
    title or text is non-empty, in chunk order, and each such chunk has a
    citation with its key in the output. *)
Theorem branch_exclusivity (r : Response) (sd : bool)
    (cand : Candidate) (rest : list Candidate) (m : GroundingMetadata) :
  candidates r = Attr (Py (cand :: rest)) →
  grounding_metadata cand = Attr (Py m) →
  let chunks := resolve_grounding_chunks m in
  let supports := resolve_grounding_supports m in
  ∃ cits dbg,
    extract_citations r sd = Ok (cits, dbg) ∧
    (supports ≠ [] →
     cits = deduplicate
              (supports ≫= λ s,
                 chunk_indices_of s ≫= cite_index (chunk_info_of chunks)) ∧
     ∀ c, c ∈ cits →
       ∃ s idx chunk,
         s ∈ supports ∧ idx ∈ chunk_indices_of s ∧ (0 ≤ idx)%Z ∧
         chunks !! Z.to_nat idx = Some chunk ∧
         c = support_citation (chunk_to_info idx chunk)) ∧
    (supports = [] → chunks ≠ [] →
     cits = deduplicate
              (direct_citation <$>
               filter (λ info, citable info = true) (chunk_infos chunks)) ∧
     ∀ n chunk,
       chunks !! n = Some chunk →
       (truthy (info_text (chunk_to_info (Z.of_nat n) chunk)) = true
        ∨ ∃ t, info_title (chunk_to_info (Z.of_nat n) chunk) = Some t
               ∧ truthy t = true) →
       direct_citation (chunk_to_info (Z.of_nat n) chunk)
         ∈ direct_citation <$>
           filter (λ info, citable info = true) (chunk_infos chunks)
       ∧ ∃ c, c ∈ cits ∧
              dedup_key c
              = dedup_key (direct_citation (chunk_to_info (Z.of_nat n) chunk))).
Proof.
  intros Hr Hm chunks supports.
  rewrite (extract_citations_metadata r sd cand rest m Hr Hm).
  exists (fst (extract_from_metadata m)), (snd (extract_from_metadata m)).
  split; [by destruct (extract_from_metadata m)|].
  rewrite extract_from_metadata_fst. split.
  - intros Hs. split.
    + unfold metadata_candidates. by rewrite branch_with_supports.
    + intros c Hc%deduplicate_elem. by apply support_candidate_inv.
  - intros Hs Hc.
    assert (Hcand : metadata_candidates m
                    = direct_citation <$>
                      filter (λ info, citable info = true) (chunk_infos chunks)).
    { unfold metadata_candidates. fold chunks. fold supports. rewrite Hs.
      by apply branch_without_supports. }
    split; [by rewrite Hcand|].
    intros n chunk Hn Hcit%citable_iff.
    pose proof (direct_candidate m n chunk Hs Hn Hcit) as Hin.
    split; [by rewrite <- Hcand|].
    by apply deduplicate_represents.
Qed.

Lemma branch_exclusivity_witness :
  let m := metadata_of [titled_chunk "A" "X"; titled_chunk "B" "Y"]
                       [support_of [1]%Z] in
  let chunks := resolve_grounding_chunks m in
  let supports := resolve_grounding_supports m in
  ∃ cits dbg,
    extract_citations (response_of [candidate_of (Attr (Py m))]) false
    = Ok (cits, dbg) ∧
    (supports ≠ [] →
     cits = deduplicate
              (supports ≫= λ s,
                 chunk_indices_of s ≫= cite_index (chunk_info_of chunks)) ∧
     ∀ c, c ∈ cits →
       ∃ s idx chunk,
         s ∈ supports ∧ idx ∈ chunk_indices_of s ∧ (0 ≤ idx)%Z ∧
         chunks !! Z.to_nat idx = Some chunk ∧
         c = support_citation (chunk_to_info idx chunk)) ∧
    (supports = [] → chunks ≠ [] →
     cits = deduplicate
              (direct_citation <$>
               filter (λ info, citable info = true) (chunk_infos chunks)) ∧
     ∀ n chunk,
       chunks !! n = Some chunk →
       (truthy (info_text (chunk_to_info (Z.of_nat n) chunk)) = true
        ∨ ∃ t, info_title (chunk_to_info (Z.of_nat n) chunk) = Some t
               ∧ truthy t = true) →
       direct_citation (chunk_to_info (Z.of_nat n) chunk)
         ∈ direct_citation <$>
           filter (λ info, citable info = true) (chunk_infos chunks)
       ∧ ∃ c, c ∈ cits ∧
              dedup_key c
              = dedup_key (direct_citation (chunk_to_info (Z.of_nat n) chunk))).
Proof.
  intros m chunks supports.
  apply (branch_exclusivity (response_of [candidate_of (Attr (Py m))]) false
           (candidate_of (Attr (Py m))) [] m); reflexivity.
Defined.

Lemma cite_index_citation_at chunks idx :
  cite_index (chunk_info_of chunks) idx = citation_at chunks idx.
Proof.
  unfold cite_index, citation_at. rewrite dict_get_chunk_info_of.
  destruct (decide (0 ≤ idx)%Z) as [Hpos|Hneg].
  - destruct (decide (0 ≤ idx < Z.of_nat (length chunks))%Z) as [Hin|Hout].
    + by destruct (chunks !! Z.to_nat idx).
    + rewrite lookup_ge_None_2; [done | lia].
  - by rewrite decide_False by lia.
Qed.

Lemma cite_indices_citations_at chunks indices :
  indices ≫= cite_index (chunk_info_of chunks) = citations_at chunks indices.
Proof.
  unfold citations_at. apply list_bind_ext; [|done].
  intros idx. apply cite_index_citation_at.
Qed.

Lemma support_citations_at chunks supports :
  support_citations (chunk_info_of chunks) supports
  = supports ≫= λ s, citations_at chunks (chunk_indices_of s).
Proof.
  rewrite support_citations_closed. apply list_bind_ext; [|done].
  intros s. apply cite_indices_citations_at.
Qed.

Lemma deduplicate_represents_key cs c :
  c ∈ cs → ∃ c', c' ∈ deduplicate cs ∧ citation_key c' = citation_key c.
Proof.
  intros Hc. destruct (deduplicate_represents cs c Hc) as (c' & Hin & Hk).
  exists c'. split; [done|]. by rewrite <- !dedup_key_citation_key.
Qed.

(** C7: an index of a support that has no entry in the chunk map (negative,
    or at least the number of chunks) contributes no citation and raises
    nothing: the function returns the first occurrences of what the other
    indices of that support and the other supports cite, in their order, and
    every index that is in range, of that support or of another one, has the
    citation of its chunk (by its key) in the output. *)
Theorem out_of_range_index_skipped (r : Response) (sd : bool)
    (cand : Candidate) (rest : list Candidate) (m : GroundingMetadata)
    (s1 s2 : list GroundingSupport) (sup : GroundingSupport)
    (l1 l2 : list Z) (idx : Z) :
  candidates r = Attr (Py (cand :: rest)) →
  grounding_metadata cand = Attr (Py m) →
  resolve_grounding_supports m = s1 ++ sup :: s2 →
  chunk_indices_of sup = l1 ++ idx :: l2 →
  (idx < 0 ∨ Z.of_nat (length (resolve_grounding_chunks m)) ≤ idx)%Z →
  let chunks := resolve_grounding_chunks m in
  let chunk_info := chunk_info_of chunks in
  dict_get idx chunk_info = None ∧
  fold_left (index_step chunk_info) (l1 ++ idx :: l2) []
  = fold_left (index_step chunk_info) (l1 ++ l2) [] ∧
  citation_at chunks idx = [] ∧
  ∃ cits dbg,
    extract_citations r sd = Ok (cits, dbg) ∧
    cits = first_occurrences
             ((s1 ≫= λ s, citations_at chunks (chunk_indices_of s))
              ++ citations_at chunks l1
              ++ citations_at chunks l2
              ++ (s2 ≫= λ s, citations_at chunks (chunk_indices_of s))) ∧
    ∀ s valid chunk,
      s ∈ s1 ++ sup :: s2 → valid ∈ chunk_indices_of s →
      (0 ≤ valid)%Z → chunks !! Z.to_nat valid = Some chunk →
      ∃ c, c ∈ cits ∧
           cit_title c
           = cit_title (support_citation (chunk_to_info valid chunk)) ∧
           first_100_characters (source_text c)
           = first_100_characters
               (source_text (support_citation (chunk_to_info valid chunk))).
Proof.
  intros Hr Hm Hs Hl Hrange chunks chunk_info.
  assert (Hnone : dict_get idx chunk_info = None)
    by (by apply dict_get_out_of_range).
  assert (Hskip : cite_index chunk_info idx = [])
    by (unfold cite_index; by rewrite Hnone).
  split; [done|]. split; [|split].
  - rewrite !index_loop, !bind_app, bind_cons. by rewrite Hskip.
  - by rewrite <- cite_index_citation_at.
  - subst chunk_info chunks.
    rewrite (extract_citations_metadata r sd cand rest m Hr Hm).
    exists (fst (extract_from_metadata m)), (snd (extract_from_metadata m)).
    split; [by destruct (extract_from_metadata m)|].
    rewrite extract_from_metadata_fst. split.
    + rewrite deduplicate_first_occurrences. f_equal.
      unfold metadata_candidates. rewrite Hs.
      rewrite branch_with_supports by (by destruct s1).
      rewrite bind_app, bind_cons, Hl, bind_app, bind_cons. rewrite Hskip.
      rewrite !cite_indices_citations_at.
      rewrite <- !support_citations_closed, !support_citations_at.
      simpl. by rewrite <- !app_assoc.
    + intros s valid chunk Hin Hvalid Hpos Hchunk.
      destruct (deduplicate_represents_key (metadata_candidates m)
                  (support_citation (chunk_to_info valid chunk)))
        as (c & Hc & Hk).
      { apply (support_candidate m s valid chunk); [by rewrite Hs|done..]. }
      exists c. split; [done|]. by injection Hk.
Qed.

Lemma out_of_range_index_skipped_witness :
  let m := metadata_of [titled_chunk "A" "X"; titled_chunk "B" "Y"]
                       [support_of [0]%Z; support_of [1; 7; 0]%Z;
                        support_of [(-1); 1]%Z] in
  let chunks := resolve_grounding_chunks m in
  let chunk_info := chunk_info_of chunks in
  let cits := [citation_titled "A" (lit "X"); citation_titled "B" (lit "Y")] in
  dict_get 7%Z chunk_info = None ∧
  fold_left (index_step chunk_info) ([1%Z] ++ 7%Z :: [0%Z]) []
  = fold_left (index_step chunk_info) ([1%Z] ++ [0%Z]) [] ∧
  citation_at chunks 7%Z = [] ∧
  ∃ dbg,
    extract_citations (response_of [candidate_of (Attr (Py m))]) false
    = Ok (cits, dbg) ∧
    cits = first_occurrences
             (([support_of [0]%Z]
               ≫= λ s, citations_at chunks (chunk_indices_of s))
              ++ citations_at chunks [1%Z]
              ++ citations_at chunks [0%Z]
              ++ ([support_of [(-1); 1]%Z]
                  ≫= λ s, citations_at chunks (chunk_indices_of s))) ∧
    ∀ s valid chunk,
      s ∈ [support_of [0]%Z] ++ support_of [1; 7; 0]%Z
          :: [support_of [(-1); 1]%Z] →
      valid ∈ chunk_indices_of s →
      (0 ≤ valid)%Z → chunks !! Z.to_nat valid = Some chunk →
      ∃ c, c ∈ cits ∧
           cit_title c
           = cit_title (support_citation (chunk_to_info valid chunk)) ∧
           first_100_characters (source_text c)
           = first_100_characters
               (source_text (support_citation (chunk_to_info valid chunk))).
Proof.
  intros m chunks chunk_info cits.
  destruct (out_of_range_index_skipped
              (response_of [candidate_of (Attr (Py m))]) false
              (candidate_of (Attr (Py m))) [] m
              [support_of [0]%Z] [support_of [(-1); 1]%Z]
              (support_of [1; 7; 0]%Z) [1%Z] [0%Z] 7%Z)
    as (Hnone & Hfold & Hat & cits' & dbg & Hex & Hfirst & Hvalid);
    try reflexivity.
  { right. vm_compute. discriminate. }
  assert (Hcits : cits' = cits) by (rewrite Hfirst; vm_compute; reflexivity).
  rewrite Hcits in Hex, Hfirst, Hvalid.
  split; [exact Hnone|]. split; [exact Hfold|]. split; [exact Hat|].
  exists dbg. split; [exact Hex|]. split; [exact Hfirst | exact Hvalid].
Defined.

Lemma citation_key_count (l : list Citation) k :
  NoDup (citation_key <$> l) →
  length (filter (λ c, citation_key c = k) l)
  = if decide (k ∈ citation_key <$> l) then 1%nat else 0%nat.
Proof.
  induction l as [|c l IH]; [done|].
  rewrite fmap_cons. intros [Hc Hnd]%NoDup_cons.
  rewrite filter_cons. specialize (IH Hnd).
  destruct (decide (citation_key c = k)) as [Heq|Hne].
  - rewrite decide_True by (apply elem_of_cons; by left).
    cbn [length]. rewrite IH.
    by rewrite decide_False by (by rewrite <- Heq).
  - rewrite IH.
    destruct (decide (k ∈ citation_key <$> l)) as [Hin|Hout].
    + by rewrite decide_True by (apply elem_of_cons; by right).
    + rewrite decide_False; [done|].
      intros [?|?]%elem_of_cons; [by destruct Hne | done].
Qed.

Lemma branch_citation_key m info1 info2 :
  info_title info1 = info_title info2 →
  first_100_characters (info_text info1)
  = first_100_characters (info_text info2) →
  citation_key (branch_citation m info1)
  = citation_key (branch_citation m info2).
Proof.
  intros Ht Hx. unfold branch_citation, citation_key.
  destruct (decide (resolve_grounding_supports m = []));
    unfold direct_citation, support_citation; simpl; by rewrite Ht, Hx.
Qed.

Lemma emitted_candidate m n chunk :
  resolve_grounding_chunks m !! n = Some chunk →
  emitted m n chunk →
  branch_citation m (chunk_to_info (Z.of_nat n) chunk) ∈ metadata_candidates m.
Proof.
  intros Hn [[Hs Hcit]|(s & Hs & Hidx)]; unfold branch_citation.
  - rewrite decide_True by done.
    apply direct_candidate; [done | done | by apply citable_iff].
  - rewrite decide_False
      by (intros Hnil; rewrite Hnil in Hs; by apply elem_of_nil in Hs).
    apply (support_candidate m s (Z.of_nat n) chunk); [done | done | lia |].
    by rewrite Nat2Z.id.
Qed.

(** C8, as the specification states it, fails: two chunks with the same
    title and the same text need not yield a citation at all.  With supports
    that reference another chunk only, the branch of the supports cites
    neither of the two; and without supports two chunks that have neither a
    title nor a text are not cited by the direct branch either. *)
Lemma identical_chunks_counterexample :
  let r := grounded_response
             [titled_chunk "A" "X"; titled_chunk "A" "X"; titled_chunk "B" "Y"]
             [support_of [2]%Z] in
  let untitled := chunk_with NoAttr (Attr (Py [])) in
  info_title (chunk_to_info 0 (titled_chunk "A" "X"))
  = info_title (chunk_to_info 1 (titled_chunk "A" "X")) ∧
  info_text (chunk_to_info 0 (titled_chunk "A" "X"))
  = info_text (chunk_to_info 1 (titled_chunk "A" "X")) ∧
  (∃ dbg, extract_citations r false
          = Ok ([citation_titled "B" (lit "Y")], dbg)) ∧
  (∃ dbg, extract_citations (grounded_response [untitled; untitled] []) false
          = Ok ([], dbg)) ∧
  ¬ (∃ cits dbg,
       extract_citations r false = Ok (cits, dbg) ∧
       length (filter (λ c, citation_key c
                            = citation_key (citation_titled "A" (lit "X")))
                      cits) = 1%nat).
Proof.
  intros r untitled.
  split; [reflexivity|]. split; [reflexivity|].
  split; [eexists; vm_compute; reflexivity|].
  split; [eexists; vm_compute; reflexivity|].
  intros (cits & dbg & Hex & Hlen).
  vm_compute in Hex. injection Hex as <- _.
  vm_compute in Hlen. discriminate.
Qed.

(** C8, amended: deduplication is idempotent, and two chunks with the same
    title and the same first 100 characters of text yield at most one
    citation for that pair, and exactly one as soon as the branch taken
    emits a citation for one of them (no supports and a non-empty title or
    text, or a support that references its position). *)
Theorem dedup_idempotent_and_collapsing (r : Response) (sd : bool)
    (cand : Candidate) (rest : list Candidate) (m : GroundingMetadata)
    (i j : nat) (chunk_i chunk_j : GroundingChunk) :
  candidates r = Attr (Py (cand :: rest)) →
  grounding_metadata cand = Attr (Py m) →
  i ≠ j →
  resolve_grounding_chunks m !! i = Some chunk_i →
  resolve_grounding_chunks m !! j = Some chunk_j →
  let info_i := chunk_to_info (Z.of_nat i) chunk_i in
  let info_j := chunk_to_info (Z.of_nat j) chunk_j in
  info_title info_i = info_title info_j →
  first_100_characters (info_text info_i)
  = first_100_characters (info_text info_j) →
  (∀ cs, deduplicate (deduplicate cs) = deduplicate cs) ∧
  (∀ cs c1 c2,
     c1 ∈ cs → c2 ∈ cs → citation_key c1 = citation_key c2 →
     length (filter (λ c, citation_key c = citation_key c1) (deduplicate cs))
     = 1%nat) ∧
  ∃ cits dbg,
    extract_citations r sd = Ok (cits, dbg) ∧
    deduplicate cits = cits ∧
    citation_key (branch_citation m info_i)
    = citation_key (branch_citation m info_j) ∧
    (length (filter (λ c, citation_key c
                          = citation_key (branch_citation m info_i)) cits)
     ≤ 1)%nat ∧
    (emitted m i chunk_i ∨ emitted m j chunk_j →
     length (filter (λ c, citation_key c
                          = citation_key (branch_citation m info_i)) cits)
     = 1%nat).
Proof.
  intros Hr Hm Hij Hi Hj info_i info_j Htitle Htext.
  assert (Hcount : ∀ cs c,
    c ∈ cs →
    length (filter (λ c', citation_key c' = citation_key c) (deduplicate cs))
    = 1%nat).
  { intros cs c Hc. rewrite citation_key_count
      by (rewrite <- dedup_keys_citation_keys; apply deduplicate_NoDup).
    rewrite decide_True; [done|].
    destruct (deduplicate_represents_key cs c Hc) as (c' & Hin & Hk).
    rewrite <- Hk. by apply list_elem_of_fmap_2. }
  split; [apply deduplicate_idempotent|].
  split; [intros cs c1 c2 H1 _ _; by apply Hcount|].
  rewrite (extract_citations_metadata r sd cand rest m Hr Hm).
  exists (fst (extract_from_metadata m)), (snd (extract_from_metadata m)).
  split; [by destruct (extract_from_metadata m)|].
  rewrite extract_from_metadata_fst.
  assert (Hkey : citation_key (branch_citation m info_i)
                 = citation_key (branch_citation m info_j))
    by (by apply branch_citation_key).
  split; [apply deduplicate_idempotent|]. split; [done|]. split.
  - rewrite citation_key_count
      by (rewrite <- dedup_keys_citation_keys; apply deduplicate_NoDup).
    destruct (decide _); lia.
  - intros [He|He].
    + apply Hcount. by apply emitted_candidate.
    + rewrite Hkey. apply Hcount. by apply emitted_candidate.
Qed.

Lemma dedup_idempotent_and_collapsing_witness :
  let chunk_i := chunk_titled "A" (dashes ++ lit " one") in
  let chunk_j := chunk_titled "A" (dashes ++ lit " two") in
  let m := metadata_of [chunk_i; bare_chunk ""; chunk_j] [] in
  let info_i := chunk_to_info (Z.of_nat 0) chunk_i in
  let info_j := chunk_to_info (Z.of_nat 2) chunk_j in
  let cits := [citation_titled "A" (dashes ++ lit " one")] in
  (∀ cs, deduplicate (deduplicate cs) = deduplicate cs) ∧
  (∀ cs c1 c2,
     c1 ∈ cs → c2 ∈ cs → citation_key c1 = citation_key c2 →
     length (filter (λ c, citation_key c = citation_key c1) (deduplicate cs))
     = 1%nat) ∧
  ∃ dbg,
    extract_citations (response_of [candidate_of (Attr (Py m))]) false
    = Ok (cits, dbg) ∧
    deduplicate cits = cits ∧
    citation_key (branch_citation m info_i)
    = citation_key (branch_citation m info_j) ∧
    (length (filter (λ c, citation_key c
                          = citation_key (branch_citation m info_i)) cits)
     ≤ 1)%nat ∧
    (emitted m 0 chunk_i ∨ emitted m 2 chunk_j →
     length (filter (λ c, citation_key c
                          = citation_key (branch_citation m info_i)) cits)
     = 1%nat).
Proof.
  intros chunk_i chunk_j m info_i info_j cits.
  destruct (dedup_idempotent_and_collapsing
              (response_of [candidate_of (Attr (Py m))]) false
              (candidate_of (Attr (Py m))) [] m 0 2 chunk_i chunk_j)
    as (Hidem & Hlist & cits' & dbg & Hex & Hfix & Hkey & Hle & Hone);
    try (vm_compute; reflexivity).
  { lia. }
  assert (Hcits : cits' = cits).
  { vm_compute in Hex. injection Hex as Hex _. rewrite <- Hex.
    vm_compute. reflexivity. }
  rewrite Hcits in Hex, Hfix, Hle, Hone.
  split; [exact Hidem|]. split; [exact Hlist|].
  exists dbg. split; [exact Hex|]. split; [exact Hfix|].
  split; [exact Hkey|]. split; [exact Hle | exact Hone].
Defined.

(** C4: the chunk list the rest of the function works on is the
    primary-named field when it is non-falsy, else the alternate-named field
    when that is non-falsy, else the empty list; the two are never merged.
    The support list is resolved the same way.  The counts in the
    diagnostics and the citations are computed from these two lists. *)
Theorem field_precedence (m : GroundingMetadata) :
  let chunks := first_non_falsy (grounding_chunks m) (groundingChunks m) in
  let supports := first_non_falsy (grounding_supports m) (groundingSupports m) in
  resolve_grounding_chunks m = chunks ∧
  resolve_grounding_supports m = supports ∧
  (∀ p, grounding_chunks m = Attr (Py p) → p ≠ [] → chunks = p) ∧
  (∀ p, grounding_supports m = Attr (Py p) → p ≠ [] → supports = p) ∧
  fst (extract_from_metadata m)
  = deduplicate (branch_citations chunks supports (chunk_info_of chunks)) ∧
  snd (extract_from_metadata m) !! "grounding_chunks_count"
  = Some (DInt (Z.of_nat (length chunks))) ∧
  snd (extract_from_metadata m) !! "grounding_supports_count"
  = Some (DInt (Z.of_nat (length supports))).
Proof.
  intros chunks supports.
  assert (Hc : resolve_grounding_chunks m = chunks)
    by apply first_non_falsy_resolve.
  assert (Hs : resolve_grounding_supports m = supports)
    by apply first_non_falsy_resolve.
  split; [done|]. split; [done|]. split; [|split; [|split; [|split]]].
  - intros p Hp Hne. unfold chunks, first_non_falsy. rewrite Hp.
    by destruct p.
  - intros p Hp Hne. unfold supports, first_non_falsy. rewrite Hp.
    by destruct p.
  - rewrite extract_from_metadata_fst. unfold metadata_candidates.
    by rewrite Hc, Hs.
  - rewrite extract_from_metadata_snd
      by (apply chunk_key_ne; intros c s; destruct (decide (c = "c"%char));
          [left; subst; discriminate | by right]).
    unfold debug_info_before_chunks.
    rewrite lookup_insert_ne by done. by rewrite lookup_insert_eq, Hc.
  - rewrite extract_from_metadata_snd
      by (apply chunk_key_ne; intros c s; destruct (decide (c = "c"%char));
          [left; subst; discriminate | by right]).
    unfold debug_info_before_chunks. by rewrite lookup_insert_eq, Hs.
Qed.

(** ** Further properties of [extract_citations] *)

Lemma dedup_from_sublist cs : ∀ seen, dedup_from seen cs `sublist_of` cs.
Proof.
  induction cs as [|c cs IH]; intros seen; simpl; [constructor|].
  destruct (decide (dedup_key c ∈ seen)).
  - apply sublist_cons, IH.
  - apply sublist_skip, IH.
Qed.

Lemma dedup_from_app l1 : ∀ seen l2,
  dedup_from seen (l1 ++ l2)
  = dedup_from seen l1
    ++ dedup_from (list_to_set (dedup_key <$> l1) ∪ seen) l2.
Proof.
  induction l1 as [|c l1 IH]; intros seen l2; simpl.
  - f_equal. set_solver.
  - destruct (decide (dedup_key c ∈ seen)) as [Hin|Hout].
    + rewrite IH. do 2 f_equal. set_solver.
    + rewrite IH. simpl. do 3 f_equal. set_solver.
Qed.

(** Where a candidate of the branch taken comes from. *)
Lemma metadata_candidate_origin m c :
  c ∈ metadata_candidates m →
  ∃ n chunk,
    resolve_grounding_chunks m !! n = Some chunk ∧
    c = (if decide (resolve_grounding_supports m = [])
         then direct_citation else support_citation)
          (chunk_to_info (Z.of_nat n) chunk).
Proof.
  intros Hc.
  destruct (decide (resolve_grounding_supports m = [])) as [Hs|Hs].
  - unfold metadata_candidates in Hc. rewrite Hs in Hc.
    destruct (resolve_grounding_chunks m) as [|ch chunks] eqn:Hch.
    { by apply elem_of_nil in Hc. }
    rewrite branch_without_supports in Hc by done.
    apply list_elem_of_fmap in Hc as (info & -> & Hinfo).
    apply list_elem_of_filter in Hinfo as [_ Hinfo].
    apply list_elem_of_lookup in Hinfo as (n & Hn).
    rewrite chunk_infos_lookup in Hn.
    destruct ((ch :: chunks) !! n) as [chunk|] eqn:Hchunk; [|done].
    injection Hn as <-. by exists n, chunk.
  - apply support_candidate_inv in Hc as (s & idx & chunk & _ & _ & Hpos & Hn & ->);
      [|done].
    exists (Z.to_nat idx), chunk. split; [done|]. by rewrite Z2Nat.id.
Qed.

Lemma or_default_string (a b : attr str) (d : str) :
  a ≠ Attr PyNone → b ≠ Attr PyNone →
  ∃ s, py_or (getattr a (Py [])) (getattr b (Py d)) = Py s.
Proof.
  intros Ha Hb. unfold py_or.
  destruct a as [|[|[|x s]]]; try done; simpl; eauto;
    destruct b as [|[|s']]; try done; simpl; eauto.
Qed.

Lemma chunk_info_strings i chunk :
  chunk_without_none chunk →
  (∃ s, info_text (chunk_to_info i chunk) = Py s) ∧
  (∀ v, info_title (chunk_to_info i chunk) = Some v → ∃ t, v = Py t) ∧
  (∀ v, info_uri (chunk_to_info i chunk) = Some v → ∃ u, v = Py u).
Proof.
  intros (Htext & Hcontent & Hctx). unfold chunk_to_info.
  assert (Hsome : ∀ c,
    py_or (getattr (retrieved_context chunk) PyNone)
          (getattr (retrievedContext chunk) PyNone) = Py c →
    context_without_none c).
  { intros c Hc. apply Hctx. unfold py_or in Hc.
    destruct (retrieved_context chunk) as [|[|c1]]; simpl in Hc;
      destruct (retrievedContext chunk) as [|[|c2]]; simpl in Hc;
      try done; injection Hc as ->; auto. }
  destruct (py_or (getattr (retrieved_context chunk) PyNone)
                  (getattr (retrievedContext chunk) PyNone)) as [|c]; simpl.
  - split; [by apply or_default_string|]. split; intros v Hv; done.
  - destruct (Hsome c eq_refl) as (Ht & Hd & Hu).
    split; [by apply or_default_string|]. split.
    + intros v [= <-]. by apply or_default_string.
    + intros v [= <-]. destruct (uri c) as [|[|u]]; try done; simpl; eauto.
Qed.

(** X1: the defaults fill every field.  When no attribute read on the chunks
    or their contexts is set to [None], every citation [extract_citations]
    returns has a string (never [None]) as title, source text and uri. *)
Theorem citations_hold_strings (r : Response) (sd : bool)
    (cand : Candidate) (rest : list Candidate) (m : GroundingMetadata) :
  candidates r = Attr (Py (cand :: rest)) →
  grounding_metadata cand = Attr (Py m) →
  (∀ chunk, chunk ∈ resolve_grounding_chunks m → chunk_without_none chunk) →
  ∃ cits dbg,
    extract_citations r sd = Ok (cits, dbg) ∧
    ∀ c, c ∈ cits →
      ∃ t s u, c = {| cit_title := Py t; source_text := Py s; cit_uri := Py u |}.
Proof.
  intros Hr Hm Hchunks.
  rewrite (extract_citations_metadata r sd cand rest m Hr Hm).
  exists (fst (extract_from_metadata m)), (snd (extract_from_metadata m)).
  split; [by destruct (extract_from_metadata m)|].
  rewrite extract_from_metadata_fst.
  intros c Hc%deduplicate_elem.
  apply metadata_candidate_origin in Hc as (n & chunk & Hn & ->).
  assert (Hin : chunk ∈ resolve_grounding_chunks m)
    by (apply list_elem_of_lookup; eauto).
  destruct (chunk_info_strings (Z.of_nat n) chunk (Hchunks chunk Hin))
    as ((s & Hs) & Ht & Hu).
  assert (Htitle : ∀ d, ∃ t,
    dict_get_default (info_title (chunk_to_info (Z.of_nat n) chunk)) (Py d) = Py t).
  { intros d. destruct (info_title _) as [v|]; simpl; [|eauto].
    by apply Ht. }
  assert (Huri : ∃ u,
    dict_get_default (info_uri (chunk_to_info (Z.of_nat n) chunk)) (Py []) = Py u).
  { destruct (info_uri _) as [v|]; simpl; [|eauto]. by apply Hu. }
  destruct Huri as (u & Huri).
  destruct (decide (resolve_grounding_supports m = [])).
  - destruct (Htitle (lit "Source Document")) as (t & Htl). exists t, s, u.
    unfold direct_citation. by rewrite Htl, Hs, Huri.
  - destruct (Htitle (lit "Unknown")) as (t & Htl). exists t, s, u.
    unfold support_citation. by rewrite Htl, Hs, Huri.
Qed.

Lemma citations_hold_strings_witness :
  ∃ cits dbg,
    extract_citations
      (grounded_response [bare_chunk "Y"; chunk_with (Attr (Py context_untitled)) NoAttr]
                         [support_of [1; 0]%Z]) false
    = Ok (cits, dbg) ∧
    ∀ c, c ∈ cits →
      ∃ t s u, c = {| cit_title := Py t; source_text := Py s; cit_uri := Py u |}.
Proof.
  apply (citations_hold_strings _ false
           (candidate_of (Attr (Py (metadata_of
              [bare_chunk "Y"; chunk_with (Attr (Py context_untitled)) NoAttr]
              [support_of [1; 0]%Z])))) []
           (metadata_of
              [bare_chunk "Y"; chunk_with (Attr (Py context_untitled)) NoAttr]
              [support_of [1; 0]%Z])); [reflexivity | reflexivity |].
  intros chunk Hin. simpl in Hin.
  apply elem_of_cons in Hin as [->|Hin];
    [|apply elem_of_cons in Hin as [->|Hin]; [|by apply elem_of_nil in Hin]].
  - split; [discriminate|]. split; [discriminate|].
    intros ctx [H|H]; discriminate.
  - split; [discriminate|]. split; [discriminate|].
    intros ctx [H|H]; [injection H as <-|discriminate].
    repeat split; discriminate.
Defined.

(** X2: there are never more citations than chunks.  Whatever the supports
    reference, and however often, the list [extract_citations] returns is at
    most as long as the resolved chunk list; with no chunks it is empty. *)
Theorem citations_bounded_by_chunks (r : Response) (sd : bool)
    (cand : Candidate) (rest : list Candidate) (m : GroundingMetadata) :
  candidates r = Attr (Py (cand :: rest)) →
  grounding_metadata cand = Attr (Py m) →
  ∃ cits dbg,
    extract_citations r sd = Ok (cits, dbg) ∧
    (length cits ≤ length (resolve_grounding_chunks m))%nat ∧
    (resolve_grounding_chunks m = [] → cits = []).
Proof.
  intros Hr Hm.
  rewrite (extract_citations_metadata r sd cand rest m Hr Hm).
  exists (fst (extract_from_metadata m)), (snd (extract_from_metadata m)).
  split; [by destruct (extract_from_metadata m)|].
  rewrite extract_from_metadata_fst.
  assert (Hlen : (length (deduplicate (metadata_candidates m))
                  ≤ length (resolve_grounding_chunks m))%nat).
  { set (cite := if decide (resolve_grounding_supports m = [])
                 then direct_citation else support_citation).
    rewrite <- (length_imap (λ n chunk, cite (chunk_to_info (Z.of_nat n) chunk))).
    apply submseteq_length, NoDup_submseteq.
    - eapply NoDup_fmap_1, deduplicate_NoDup.
    - intros c Hc%deduplicate_elem.
      apply metadata_candidate_origin in Hc as (n & chunk & Hn & ->).
      apply list_elem_of_lookup. exists n.
      by rewrite list_lookup_imap, Hn. }
  split; [done|]. intros Hnil. rewrite Hnil in Hlen.
  by apply length_zero_iff_nil, Nat.le_0_r.
Qed.

Lemma citations_bounded_by_chunks_witness :
  ∃ cits dbg,
    extract_citations
      (grounded_response [titled_chunk "A" "X"]
                         [support_of [0; 0; 3]%Z; support_of [0]%Z]) false
    = Ok (cits, dbg) ∧
    (length cits
     ≤ length (resolve_grounding_chunks
                 (metadata_of [titled_chunk "A" "X"]
                              [support_of [0; 0; 3]%Z; support_of [0]%Z])))%nat ∧
    (resolve_grounding_chunks
       (metadata_of [titled_chunk "A" "X"]
                    [support_of [0; 0; 3]%Z; support_of [0]%Z]) = [] →
     cits = []).
Proof.
  apply (citations_bounded_by_chunks _ false
           (candidate_of (Attr (Py (metadata_of [titled_chunk "A" "X"]
              [support_of [0; 0; 3]%Z; support_of [0]%Z])))) []);
    reflexivity.
Defined.

(** X3: deduplication only removes.  The returned list is a subsequence of
    the candidate list of the branch taken (same relative order), and when
    the candidates have pairwise different keys nothing is removed. *)
Theorem deduplication_only_removes (r : Response) (sd : bool) :
  candidates r ≠ NoAttr →
  ∃ cits dbg,
    extract_citations r sd = Ok (cits, dbg) ∧
    cits `sublist_of` response_candidates r ∧
    (NoDup (dedup_key <$> response_candidates r) →
     cits = response_candidates r).
Proof.
  intros Hr. unfold extract_citations, response_candidates.
  destruct (candidates r) as [|[|[|cand rest]]]; [done|..].
  - eexists _, _. split; [done|]. split; [constructor | done].
  - eexists _, _. split; [done|]. split; [constructor | done].
  - exists (fst (extract_from_candidate cand)), (snd (extract_from_candidate cand)).
    split; [by destruct (extract_from_candidate cand)|].
    rewrite extract_from_candidate_fst, deduplicate_dedup_from.
    split; [apply dedup_from_sublist|].
    intros Hnd. apply dedup_from_fixed; [done | set_solver].
Qed.

Lemma deduplication_only_removes_witness :
  ∃ cits dbg,
    extract_citations
      (grounded_response [titled_chunk "A" "X"; titled_chunk "B" "Y"]
                         [support_of [1; 0; 1]%Z]) false
    = Ok (cits, dbg) ∧
    cits `sublist_of`
      response_candidates
        (grounded_response [titled_chunk "A" "X"; titled_chunk "B" "Y"]
                           [support_of [1; 0; 1]%Z]) ∧
    (NoDup (dedup_key <$>
            response_candidates
              (grounded_response [titled_chunk "A" "X"; titled_chunk "B" "Y"]
                                 [support_of [1; 0; 1]%Z])) →
     cits = response_candidates
              (grounded_response [titled_chunk "A" "X"; titled_chunk "B" "Y"]
                                 [support_of [1; 0; 1]%Z])).
Proof.
  apply (deduplication_only_removes
           (grounded_response [titled_chunk "A" "X"; titled_chunk "B" "Y"]
                              [support_of [1; 0; 1]%Z]) false).
  simpl. discriminate.
Defined.

(** *** Strings *)

Lemma string_length_app (s t : string) :
  String.length (s +:+ t) = (String.length s + String.length t)%nat.
Proof. induction s as [|a s IH]; simpl; [done | by rewrite IH]. Qed.

Lemma string_app_inj_r (t s1 : string) : ∀ s2,
  s1 +:+ t = s2 +:+ t → s1 = s2.
Proof.
  induction s1 as [|a s1 IH]; intros [|b s2] Heq; simpl in *.
  - done.
  - apply (f_equal String.length) in Heq. simpl in Heq.
    rewrite !string_length_app in Heq. simpl in Heq. lia.
  - apply (f_equal String.length) in Heq. simpl in Heq.
    rewrite !string_length_app in Heq. simpl in Heq. lia.
  - injection Heq as -> Heq. f_equal. by apply IH.
Qed.

Lemma slice_to_length n : ∀ s : str,
  length (slice_to n s) = Nat.min n (length s).
Proof.
  induction n as [|n IH]; intros [|a s]; simpl; try done. by rewrite IH.
Qed.

Lemma slice_to_app (p t : str) : slice_to (length p) (p ++ t) = p.
Proof. induction p as [|a p IH]; simpl; [by destruct t | by rewrite IH]. Qed.

Lemma slice_to_all n (s : str) : (length s ≤ n)%nat → slice_to n s = s.
Proof.
  revert s. induction n as [|n IH]; intros [|a s] Hlen; simpl in *;
    try done; [lia|]. rewrite IH; [done | lia].
Qed.

Lemma chunk_attrs_key_inj i j : chunk_attrs_key i = chunk_attrs_key j → i = j.
Proof.
  unfold chunk_attrs_key. intros Heq.
  apply (inj (String.app "chunk_")) in Heq.
  apply string_app_inj_r in Heq. by apply (inj pretty) in Heq.
Qed.

(** *** The diagnostics *)

Lemma chunk_loop_snd_ge chunks key : ∀ i acc (dbg : gmap string DebugValue),
  (∀ n : Z, (i ≤ n)%Z → key ≠ chunk_attrs_key n) →
  snd (fold_left chunk_step (enumerate_from i chunks) (acc, dbg)) !! key
  = dbg !! key.
Proof.
  induction chunks as [|c chunks IH]; intros i acc dbg Hkey; simpl; [done|].
  rewrite IH by (intros n Hn; apply Hkey; lia).
  apply lookup_insert_ne. intros Heq. apply (Hkey i); [lia | done].
Qed.

Lemma chunk_loop_lookup chunks : ∀ i acc (dbg : gmap string DebugValue) n chunk,
  chunks !! n = Some chunk →
  snd (fold_left chunk_step (enumerate_from i chunks) (acc, dbg))
    !! chunk_attrs_key (i + Z.of_nat n)
  = Some (DNames (public_attrs (chunk_dir chunk))).
Proof.
  induction chunks as [|c chunks IH]; intros i acc dbg n chunk Hn; [done|].
  destruct n as [|n]; simpl in *.
  - injection Hn as ->. replace (i + Z.of_nat 0)%Z with i by lia.
    rewrite chunk_loop_snd_ge.
    + apply lookup_insert_eq.
    + intros k Hk Heq%chunk_attrs_key_inj. lia.
  - replace (i + Z.of_nat (S n))%Z with (i + 1 + Z.of_nat n)%Z by lia. by apply IH.
Qed.

Lemma lookup_before_chunks m key :
  key ≠ "grounding_supports_count" → key ≠ "grounding_chunks_count" →
  key ≠ "retrieval_metadata_attrs" → key ≠ "has_retrieval_metadata" →
  debug_info_before_chunks m !! key
  = (<["metadata_attrs" := DNames (public_attrs (metadata_dir m))]> ∅
      : gmap string DebugValue) !! key.
Proof.
  intros H1 H2 H3 H4. unfold debug_info_before_chunks.
  rewrite !lookup_insert_ne by done.
  destruct (getattr (retrieval_metadata m) PyNone); [done|].
  by rewrite !lookup_insert_ne by done.
Qed.

Lemma not_chunk_key (key : string) (a : ascii) (s : string) :
  key = String a s → a ≠ "c"%char → ∀ n : Z, key ≠ chunk_attrs_key n.
Proof. intros -> Ha n [= Heq _]. done. Qed.

(** X4: the diagnostics tell why there are no citations.  The key "error"
    is set exactly when the function returned before looking at any chunk (no
    first candidate, or no grounding metadata on it), and then the citation
    list is empty; the key "metadata_attrs" is set exactly otherwise. *)
Theorem error_note_iff_early_return (r : Response) (sd : bool) :
  candidates r ≠ NoAttr →
  ∃ cits dbg,
    extract_citations r sd = Ok (cits, dbg) ∧
    (is_Some (dbg !! "error") ↔ ¬ has_metadata r) ∧
    (is_Some (dbg !! "metadata_attrs") ↔ has_metadata r) ∧
    (is_Some (dbg !! "error") → cits = []).
Proof.
  intros Hr. unfold extract_citations, has_metadata.
  destruct (candidates r) as [|[|[|cand rest]]] eqn:Hc; [done|..].
  - eexists _, _. split; [done|]. rewrite lookup_insert_eq.
    rewrite lookup_insert_ne, lookup_empty by done.
    split; [|split; [|done]].
    + split; [intros _ (? & ? & ? & ? & _); done | eauto].
    + split; [by intros [? ?] | intros (? & ? & ? & ? & _); done].
  - eexists _, _. split; [done|]. rewrite lookup_insert_eq.
    rewrite lookup_insert_ne, lookup_empty by done.
    split; [|split; [|done]].
    + split; [intros _ (? & ? & ? & ? & _); done | eauto].
    + split; [by intros [? ?] | intros (? & ? & ? & ? & _); done].
  - exists (fst (extract_from_candidate cand)), (snd (extract_from_candidate cand)).
    split; [by destruct (extract_from_candidate cand)|].
    unfold extract_from_candidate.
    destruct (getattr (grounding_metadata cand) PyNone) as [|m] eqn:Hm; simpl.
    + rewrite lookup_insert_ne, lookup_insert_eq by done.
      rewrite !lookup_insert_ne, lookup_empty by done.
      split; [|split; [|done]].
      * split; [|eauto]. intros _ (c' & r' & m' & [= <- _] & Hm').
        by rewrite Hm in Hm'.
      * split; [by intros [? ?]|]. intros (c' & r' & m' & [= <- _] & Hm').
        by rewrite Hm in Hm'.
    + rewrite !extract_from_metadata_snd
        by (eapply not_chunk_key; [reflexivity | done]).
      rewrite !lookup_before_chunks by done.
      rewrite lookup_insert_ne, lookup_empty, lookup_insert_eq by done.
      split; [|split].
      * split; [by intros [? ?]|]. intros Hno. destruct Hno. eauto.
      * split; eauto.
      * by intros [? ?].
Qed.

Lemma error_note_iff_early_return_witness :
  ∃ cits dbg,
    extract_citations (response_of [candidate_of NoAttr]) false = Ok (cits, dbg) ∧
    (is_Some (dbg !! "error")
     ↔ ¬ has_metadata (response_of [candidate_of NoAttr])) ∧
    (is_Some (dbg !! "metadata_attrs")
     ↔ has_metadata (response_of [candidate_of NoAttr])) ∧
    (is_Some (dbg !! "error") → cits = []).
Proof.
  apply (error_note_iff_early_return (response_of [candidate_of NoAttr]) false).
  simpl. discriminate.
Defined.

(** X5: the diagnostics list the attributes of every chunk.  For each
    position [n] of the resolved chunk list the key "chunk_<n>_attrs" holds
    the names [dir] gives for that chunk that do not start with an
    underscore; entries of later chunks never overwrite it. *)
Theorem chunk_attrs_recorded (r : Response) (sd : bool)
    (cand : Candidate) (rest : list Candidate) (m : GroundingMetadata)
    (n : nat) (chunk : GroundingChunk) :
  candidates r = Attr (Py (cand :: rest)) →
  grounding_metadata cand = Attr (Py m) →
  resolve_grounding_chunks m !! n = Some chunk →
  ∃ cits dbg,
    extract_citations r sd = Ok (cits, dbg) ∧
    dbg !! ("chunk_" +:+ pretty (Z.of_nat n) +:+ "_attrs")
    = Some (DNames (public_attrs (chunk_dir chunk))).
Proof.
  intros Hr Hm Hn.
  rewrite (extract_citations_metadata r sd cand rest m Hr Hm).
  exists (fst (extract_from_metadata m)), (snd (extract_from_metadata m)).
  split; [by destruct (extract_from_metadata m)|].
  unfold extract_from_metadata.
  match goal with
  | |- context [build_chunk_info ?c ?d] =>
      pose proof (chunk_loop_lookup c 0%Z [] d n chunk Hn) as Hsnd;
      fold (enumerate c) in Hsnd; fold (build_chunk_info c d) in Hsnd;
      destruct (build_chunk_info c d) as [ci dbg]
  end.
  simpl in *. by rewrite Z.add_0_l in Hsnd.
Qed.

Lemma chunk_attrs_recorded_witness :
  ∃ cits dbg,
    extract_citations
      (grounded_response [titled_chunk "A" "X"; bare_chunk "Y"] []) false
    = Ok (cits, dbg) ∧
    dbg !! ("chunk_" +:+ pretty (Z.of_nat 1) +:+ "_attrs")
    = Some (DNames (public_attrs (chunk_dir (bare_chunk "Y")))).
Proof.
  apply (chunk_attrs_recorded _ false
           (candidate_of (Attr (Py (metadata_of
              [titled_chunk "A" "X"; bare_chunk "Y"] [])))) []
           (metadata_of [titled_chunk "A" "X"; bare_chunk "Y"] []) 1
           (bare_chunk "Y")); reflexivity.
Defined.

(** X6: the key is loose on purpose and the first citation wins.  A
    citation that agrees with an earlier one on the title and on the first
    100 characters of the source text is dropped, whatever the rest of its
    text and its uri are, and the earlier one is kept. *)
Theorem later_duplicate_dropped (pre post : list Citation)
    (c1 c2 : Citation) (s1 s2 : str) :
  source_text c1 = Py s1 →
  source_text c2 = Py s2 →
  take 100 s1 = take 100 s2 →
  cit_title c1 = cit_title c2 →
  (∀ c, c ∈ pre → citation_key c ≠ citation_key c1) →
  c1 ∈ deduplicate (pre ++ c1 :: post) ∧
  (c2 ∈ deduplicate (pre ++ c1 :: post) → c2 = c1).
Proof.
  intros H1 H2 Htake Ht Hfresh.
  assert (Hk : dedup_key c2 = dedup_key c1).
  { rewrite !dedup_key_citation_key.
    unfold citation_key, first_100_characters.
    by rewrite H1, H2, Ht, Htake. }
  assert (Hpre : dedup_key c1 ∉ dedup_key <$> pre).
  { intros (c & Hc & Hin)%list_elem_of_fmap. apply (Hfresh c Hin).
    by rewrite <- !dedup_key_citation_key. }
  rewrite deduplicate_dedup_from, dedup_from_app. simpl.
  rewrite decide_False; last first.
  { intros [Hin|Hin]%elem_of_union;
      [by apply elem_of_list_to_set in Hin | by apply elem_of_empty in Hin]. }
  split.
  - apply elem_of_app. right. apply elem_of_cons. by left.
  - intros [Hin|Hin]%elem_of_app.
    + apply dedup_from_elem in Hin as [Hin _]. destruct Hpre.
      rewrite <- Hk. by apply list_elem_of_fmap_2.
    + apply elem_of_cons in Hin as [->|Hin]; [done|].
      apply dedup_from_elem in Hin as [_ Hin]. destruct Hin.
      apply elem_of_union. left. by apply elem_of_singleton.
Qed.

Lemma later_duplicate_dropped_witness :
  let p := replicate 100 8212%N in
  let c1 := {| cit_title := Py (lit "A"); source_text := Py (p ++ lit " first");
               cit_uri := Py (lit "files/1") |} in
  let c2 := {| cit_title := Py (lit "A"); source_text := Py (p ++ lit " second");
               cit_uri := Py (lit "files/2") |} in
  c1 ∈ deduplicate ([] ++ c1 :: [c2]) ∧
  (c2 ∈ deduplicate ([] ++ c1 :: [c2]) → c2 = c1).
Proof.
  intros p c1 c2.
  apply (later_duplicate_dropped [] [c2] c1 c2 (p ++ lit " first")
           (p ++ lit " second")); try reflexivity.
  intros c Hc. by apply elem_of_nil in Hc.
Defined.

(** X7: how the title of a chunk with a context is chosen.  A non-empty
    title wins whatever displayName holds; when the title is unset, [None] or
    empty and displayName is set, the citation gets the displayName value as
    it is, [None] and the empty string included: "Unknown Source" is used only
    when the attribute is missing. *)
Theorem display_name_used_as_is (i : Z) (chunk : GroundingChunk)
    (ctx : RetrievedContext) (v : value str) :
  py_or (getattr (retrieved_context chunk) PyNone)
        (getattr (retrievedContext chunk) PyNone) = Py ctx →
  displayName ctx = Attr v →
  let info := chunk_to_info i chunk in
  (∀ t, title ctx = Attr (Py t) → t ≠ [] →
        cit_title (direct_citation info) = Py t ∧
        cit_title (support_citation info) = Py t) ∧
  (truthy (getattr (title ctx) (Py [])) = false →
   info_title info = Some v ∧
   cit_title (direct_citation info) = v ∧
   cit_title (support_citation info) = v ∧
   (citable info = true ↔ truthy (info_text info) = true ∨ truthy v = true)).
Proof.
  intros Hctx Hd info.
  assert (Hinfo : info_title info
                  = Some (py_or (getattr (title ctx) (Py [])) v)).
  { unfold info, chunk_to_info. rewrite Hctx. simpl. by rewrite Hd. }
  split.
  - intros t Ht Hne. unfold direct_citation, support_citation. simpl.
    rewrite Hinfo, Ht. simpl. unfold py_or. simpl. by destruct t.
  - intros Hfalsy. unfold py_or in Hinfo. rewrite Hfalsy in Hinfo.
    split; [done|]. unfold direct_citation, support_citation. simpl.
    rewrite Hinfo. simpl. split; [done|]. split; [done|].
    rewrite citable_iff, Hinfo. split.
    + intros [?|(t & [= <-] & ?)]; auto.
    + intros [?|?]; [by left | right; eauto].
Qed.

Lemma display_name_used_as_is_witness :
  let ctx := {| title := Attr (Py []); displayName := Attr PyNone;
                uri := NoAttr |} in
  let info := chunk_to_info 0 (chunk_with (Attr (Py ctx)) (Attr (Py (lit "X")))) in
  (∀ t, title ctx = Attr (Py t) → t ≠ [] →
        cit_title (direct_citation info) = Py t ∧
        cit_title (support_citation info) = Py t) ∧
  (truthy (getattr (title ctx) (Py [])) = false →
   info_title info = Some PyNone ∧
   cit_title (direct_citation info) = PyNone ∧
   cit_title (support_citation info) = PyNone ∧
   (citable info = true ↔ truthy (info_text info) = true ∨ truthy (PyNone : value str) = true)).
Proof.
  intros ctx info.
  apply (display_name_used_as_is 0 (chunk_with (Attr (Py ctx)) (Attr (Py (lit "X"))))
           ctx PyNone); reflexivity.
Defined.

(** ** The command-line front end (file_search_guides.py) *)

(** X8: the snippet printed for a chunk text is bounded.  A text of at most
    200 characters is printed whole; a longer one is cut to its first 200
    characters followed by "...", 203 characters in all. *)
Theorem snippet_bounded (t : str) :
  (length (FileSearchGuides.snippet_of t) ≤ 203)%nat ∧
  take 200 (FileSearchGuides.snippet_of t) = take 200 t ∧
  ((length t ≤ 200)%nat → FileSearchGuides.snippet_of t = t) ∧
  ((200 < length t)%nat →
   FileSearchGuides.snippet_of t = take 200 t ++ lit "..." ∧
   length (FileSearchGuides.snippet_of t) = 203%nat).
Proof.
  unfold FileSearchGuides.snippet_of. rewrite slice_to_take.
  destruct (decide (200 < length t)%nat) as [Hlong|Hshort].
  - assert (Hlen : length (take 200 t) = 200%nat)
      by (rewrite length_take; lia).
    split; [rewrite length_app, Hlen; simpl; lia|].
    split; [|split; [lia|]].
    + rewrite take_app_le by lia. rewrite take_take. by rewrite Nat.min_id.
    + intros _. split; [done|]. by rewrite length_app, Hlen.
  - split; [lia|]. split; [done|]. split; [done | lia].
Qed.

Lemma print_chunks_from chunks : ∀ (i : Z) (n : nat) chunk line,
  chunks !! n = Some chunk →
  line ∈ FileSearchGuides.print_chunk (i + Z.of_nat n) chunk →
  line ∈ (enumerate_from i chunks
          ≫= λ ic, FileSearchGuides.print_chunk ic.1 ic.2).
Proof.
  induction chunks as [|c chunks IH]; intros i n chunk line Hn Hline; [done|].
  change (enumerate_from i (c :: chunks))
    with ((i, c) :: enumerate_from (i + 1) chunks).
  rewrite bind_cons. apply elem_of_app.
  destruct n as [|n]; simpl in Hn.
  - injection Hn as ->. left. simpl.
    by replace (i + Z.of_nat 0)%Z with i in Hline by lia.
  - right. apply (IH (i + 1)%Z n chunk); [done|].
    by replace (i + 1 + Z.of_nat n)%Z with (i + Z.of_nat (S n))%Z by lia.
Qed.

Lemma print_chunks_length chunks : ∀ i : Z,
  (length (enumerate_from i chunks
           ≫= λ ic, FileSearchGuides.print_chunk ic.1 ic.2)
   ≤ 2 * length chunks)%nat.
Proof.
  induction chunks as [|c chunks IH]; intros i; [simpl; lia|].
  change (enumerate_from i (c :: chunks))
    with ((i, c) :: enumerate_from (i + 1) chunks).
  rewrite bind_cons, length_app. specialize (IH (i + 1)%Z).
  assert (length (FileSearchGuides.print_chunk i c) ≤ 2)%nat; [|simpl in *; lia].
  unfold FileSearchGuides.print_chunk.
  destruct (retrieved_context c); simpl; [lia|].
  destruct (text c) as [|[|t]]; simpl; try lia.
  destruct (truthy t); simpl; lia.
Qed.

(** X9: the command-line listing numbers the sources by chunk position,
    from 1.  For a response whose metadata has a non-empty [grounding_chunks]
    list, the output is the answer block, the citations banner and the lines
    of the chunks; the chunk at position [n] that has a [retrieved_context]
    attribute is announced as "[n+1] Source: <title>" (title "Unknown" when
    the context is [None] or has no title), a chunk without that attribute
    prints nothing and does not shift the numbers of the others, and no
    chunk prints more than two lines. *)
Theorem cli_numbers_by_position (r : Response) (t : value str)
    (cand : Candidate) (rest : list Candidate) (m : GroundingMetadata)
    (chunks : list GroundingChunk) (n : nat) (chunk : GroundingChunk) :
  response_text r = Attr t →
  candidates r = Attr (Py (cand :: rest)) →
  grounding_metadata cand = Attr (Py m) →
  grounding_chunks m = Attr (Py chunks) →
  chunks !! n = Some chunk →
  let out := FileSearchGuides.print_response_with_citations r in
  out = (FileSearchGuides.answer_banner ++ [py_str t]
         ++ FileSearchGuides.citations_banner
         ++ FileSearchGuides.print_chunks chunks, None) ∧
  (retrieved_context chunk = NoAttr →
   FileSearchGuides.print_chunk (Z.of_nat n + 1)%Z chunk = []) ∧
  (∀ ctx, retrieved_context chunk = Attr (Py ctx) →
     (newline ++ lit "[" ++ int_str (Z.of_nat n + 1) ++ lit "] Source: "
      ++ py_str (getattr (title ctx) (Py (lit "Unknown")))) ∈ fst out) ∧
  (retrieved_context chunk = Attr PyNone →
     (newline ++ lit "[" ++ int_str (Z.of_nat n + 1) ++ lit "] Source: "
      ++ lit "Unknown")
       ∈ fst out) ∧
  (length (fst out) ≤ 7 + 2 * length chunks)%nat.
Proof.
  intros Ht Hr Hm Hc Hn out.
  assert (Hout : out = (FileSearchGuides.answer_banner ++ [py_str t]
                        ++ FileSearchGuides.citations_banner
                        ++ FileSearchGuides.print_chunks chunks, None)).
  { unfold out, FileSearchGuides.print_response_with_citations.
    rewrite Ht, Hr, Hm, Hc. destruct chunks as [|c chunks]; [done|].
    by rewrite <- !app_assoc. }
  assert (Hline : ∀ line,
    line ∈ FileSearchGuides.print_chunk (Z.of_nat n + 1)%Z chunk →
    line ∈ fst out).
  { intros line Hline. rewrite Hout. cbn [fst].
    rewrite !elem_of_app. do 3 right.
    apply (print_chunks_from chunks 1 n chunk); [done|].
    by replace (1 + Z.of_nat n)%Z with (Z.of_nat n + 1)%Z by lia. }
  split; [done|]. split; [|split; [|split]].
  - intros Hno. unfold FileSearchGuides.print_chunk. by rewrite Hno.
  - intros ctx Hctx. apply Hline.
    unfold FileSearchGuides.print_chunk. rewrite Hctx.
    apply elem_of_cons. by left.
  - intros Hctx. apply Hline.
    unfold FileSearchGuides.print_chunk. rewrite Hctx.
    apply elem_of_cons. by left.
  - rewrite Hout. cbn [fst]. rewrite !length_app.
    unfold FileSearchGuides.answer_banner, FileSearchGuides.citations_banner.
    cbn [length].
    pose proof (print_chunks_length chunks 1).
    unfold FileSearchGuides.print_chunks. lia.
Qed.

Lemma cli_numbers_by_position_witness :
  let chunks := [bare_chunk "Y"; titled_chunk "B" "Z"] in
  let out := FileSearchGuides.print_response_with_citations
               (grounded_response chunks []) in
  out = (FileSearchGuides.answer_banner ++ [py_str (Py (lit "answer"))]
         ++ FileSearchGuides.citations_banner
         ++ FileSearchGuides.print_chunks chunks, None) ∧
  (retrieved_context (titled_chunk "B" "Z") = NoAttr →
   FileSearchGuides.print_chunk (Z.of_nat 1 + 1)%Z (titled_chunk "B" "Z") = []) ∧
  (∀ ctx, retrieved_context (titled_chunk "B" "Z") = Attr (Py ctx) →
     (newline ++ lit "[" ++ int_str (Z.of_nat 1 + 1) ++ lit "] Source: "
      ++ py_str (getattr (title ctx) (Py (lit "Unknown")))) ∈ fst out) ∧
  (retrieved_context (titled_chunk "B" "Z") = Attr PyNone →
     (newline ++ lit "[" ++ int_str (Z.of_nat 1 + 1) ++ lit "] Source: "
      ++ lit "Unknown")
       ∈ fst out) ∧
  (length (fst out) ≤ 7 + 2 * length chunks)%nat.
Proof.
  intros chunks out.
  apply (cli_numbers_by_position (grounded_response chunks []) (Py (lit "answer"))
           (candidate_of (Attr (Py (metadata_of chunks [])))) []
           (metadata_of chunks []) chunks 1 (titled_chunk "B" "Z"));
    reflexivity.
Defined.

(** X10: only [extract_citations] reads the camelCase field names.  When
    the chunks of the metadata are under [groundingChunks] and
    [grounding_chunks] is unset, [None] or empty, [extract_citations] works
    on those chunks (and cites the first one when it is citable and there are
    no supports), while the command-line printer shows no citation section
    and the raw display of [main] lists no chunk. *)
Theorem camel_case_read_by_extract_only (r : Response) (sd : bool)
    (t : value str) (cand : Candidate) (rest : list Candidate)
    (m : GroundingMetadata) (chunk : GroundingChunk)
    (chunks : list GroundingChunk) :
  response_text r = Attr t →
  candidates r = Attr (Py (cand :: rest)) →
  grounding_metadata cand = Attr (Py m) →
  truthy (getattr (grounding_chunks m) PyNone) = false →
  groundingChunks m = Attr (Py (chunk :: chunks)) →
  FileSearchGuides.print_response_with_citations r
  = (FileSearchGuides.answer_banner ++ [py_str t], None) ∧
  (∀ (S : Type) (str_chunk : GroundingChunk → S)
     (str_support : GroundingSupport → S),
     ∃ shown, raw_grounding_output str_chunk str_support r
              = Ok (Some ([], shown))) ∧
  ∃ cits dbg,
    extract_citations r sd = Ok (cits, dbg) ∧
    resolve_grounding_chunks m = chunk :: chunks ∧
    dbg !! "grounding_chunks_count"
    = Some (DInt (Z.of_nat (S (length chunks)))) ∧
    (resolve_grounding_supports m = [] →
     citable (chunk_to_info 0 chunk) = true → cits ≠ []).
Proof.
  intros Ht Hr Hm Hsnake Hcamel.
  assert (Hres : resolve_grounding_chunks m = chunk :: chunks).
  { unfold resolve_grounding_chunks, py_or. by rewrite Hsnake, Hcamel. }
  split; [|split].
  - unfold FileSearchGuides.print_response_with_citations.
    rewrite Ht, Hr, Hm.
    by destruct (grounding_chunks m) as [|[|[|c cs]]].
  - intros S str_chunk str_support. unfold raw_grounding_output.
    rewrite Hr, Hm. eexists.
    by destruct (grounding_chunks m) as [|[|[|c cs]]].
  - rewrite (extract_citations_metadata r sd cand rest m Hr Hm).
    exists (fst (extract_from_metadata m)), (snd (extract_from_metadata m)).
    split; [by destruct (extract_from_metadata m)|].
    split; [done|]. split.
    + rewrite extract_from_metadata_snd
        by (eapply not_chunk_key; [reflexivity | done]).
      unfold debug_info_before_chunks.
      rewrite lookup_insert_ne by done. by rewrite lookup_insert_eq, Hres.
    + intros Hs Hcit Hnil.
      destruct (deduplicate_represents (metadata_candidates m)
                  (direct_citation (chunk_to_info (Z.of_nat 0) chunk)))
        as (c & Hin & _).
      { apply direct_candidate; [done | by rewrite Hres | done]. }
      rewrite <- extract_from_metadata_fst, Hnil in Hin.
      by apply elem_of_nil in Hin.
Qed.

Lemma camel_case_read_by_extract_only_witness :
  let m := {| metadata_dir := ["groundingChunks"];
              grounding_chunks := NoAttr;
              groundingChunks := Attr (Py [titled_chunk "A" "X"]);
              grounding_supports := NoAttr;
              groundingSupports := NoAttr;
              retrieval_metadata := NoAttr |} in
  let r := response_of [candidate_of (Attr (Py m))] in
  FileSearchGuides.print_response_with_citations r
  = (FileSearchGuides.answer_banner ++ [py_str (Py (lit "answer"))], None) ∧
  (∀ (S : Type) (str_chunk : GroundingChunk → S)
     (str_support : GroundingSupport → S),
     ∃ shown, raw_grounding_output str_chunk str_support r
              = Ok (Some ([], shown))) ∧
  ∃ cits dbg,
    extract_citations r false = Ok (cits, dbg) ∧
    resolve_grounding_chunks m = [titled_chunk "A" "X"] ∧
    dbg !! "grounding_chunks_count"
    = Some (DInt (Z.of_nat (S (length (@nil GroundingChunk))))) ∧
    (resolve_grounding_supports m = [] →
     citable (chunk_to_info 0 (titled_chunk "A" "X")) = true → cits ≠ []).
Proof.
  intros m r.
  apply (camel_case_read_by_extract_only r false (Py (lit "answer"))
           (candidate_of (Attr (Py m))) [] m (titled_chunk "A" "X") []);
    reflexivity.
Defined.

(** X11: a first candidate that has no [grounding_metadata] attribute at
    all is tolerated by [extract_citations] only.  [extract_citations]
    returns no citations and an "error" note; the command-line printer prints
    the answer block and then raises [AttributeError], and so does the raw
    display of [main]. *)
Theorem missing_attribute_tolerated_by_extract_only (r : Response) (sd : bool)
    (t : value str) (cand : Candidate) (rest : list Candidate) :
  response_text r = Attr t →
  candidates r = Attr (Py (cand :: rest)) →
  grounding_metadata cand = NoAttr →
  (∃ dbg, extract_citations r sd = Ok ([], dbg) ∧
          dbg !! "error" = Some (DStr "No grounding_metadata in candidate")) ∧
  FileSearchGuides.print_response_with_citations r
  = (FileSearchGuides.answer_banner ++ [py_str t],
     Some (AttributeError "grounding_metadata")) ∧
  (∀ (S : Type) (str_chunk : GroundingChunk → S)
     (str_support : GroundingSupport → S),
     raw_grounding_output str_chunk str_support r
     = Raise (AttributeError "grounding_metadata")).
Proof.
  intros Ht Hr Hm. split; [|split].
  - rewrite (extract_citations_head r sd cand rest Hr).
    unfold extract_from_candidate. rewrite Hm. simpl.
    eexists. split; [done|].
    by rewrite lookup_insert_ne, lookup_insert_eq.
  - unfold FileSearchGuides.print_response_with_citations.
    by rewrite Ht, Hr, Hm.
  - intros S str_chunk str_support. unfold raw_grounding_output.
    by rewrite Hr, Hm.
Qed.

Lemma missing_attribute_tolerated_by_extract_only_witness :
  let r := response_of [candidate_of NoAttr] in
  (∃ dbg, extract_citations r false = Ok ([], dbg) ∧
          dbg !! "error" = Some (DStr "No grounding_metadata in candidate")) ∧
  FileSearchGuides.print_response_with_citations r
  = (FileSearchGuides.answer_banner ++ [py_str (Py (lit "answer"))],
     Some (AttributeError "grounding_metadata")) ∧
  (∀ (S : Type) (str_chunk : GroundingChunk → S)
     (str_support : GroundingSupport → S),
     raw_grounding_output str_chunk str_support r
     = Raise (AttributeError "grounding_metadata")).
Proof.
  intros r.
  apply (missing_attribute_tolerated_by_extract_only r false (Py (lit "answer"))
           (candidate_of NoAttr) []); reflexivity.
Defined.

(** ** Looking up the store (setup.py, file_search_guides.py) *)

(** X12: [find_existing_store] returns the first store of the listing whose
    display name equals the wanted one: no store yielded before it matches;
    it returns [None] exactly when no store yielded before the listing ended
    or failed matches.  The versions of setup.py and file_search_guides.py
    return the same store. *)
Theorem find_existing_store_first_match (stores : Api.listing)
    (wanted : str) :
  snd (FileSearchGuides.find_existing_store stores wanted)
  = snd (Setup.find_existing_store stores wanted) ∧
  match snd (Setup.find_existing_store stores wanted) with
  | Some store =>
      Api.display_name store = Py wanted ∧
      ∃ before after,
        Api.yielded stores = before ++ store :: after ∧
        ∀ s, s ∈ before → Api.display_name s ≠ Py wanted
  | None =>
      ∀ s, s ∈ Api.yielded stores → Api.display_name s ≠ Py wanted
  end.
Proof.
  induction stores as [|store rest [IHeq IH]|e]; simpl.
  - split; [done|]. by intros s ?%elem_of_nil.
  - destruct (decide (Api.display_name store = Py wanted)) as [Heq|Hne]; simpl.
    + split; [done|]. split; [done|].
      exists [], (Api.yielded rest). split; [done|]. by intros s ?%elem_of_nil.
    + split; [done|].
      destruct (snd (Setup.find_existing_store rest wanted)) as [found|].
      * destruct IH as (Hfound & before & after & Hy & Hbefore).
        split; [done|]. exists (store :: before), after.
        split; [by rewrite Hy|].
        intros s [->|Hs]%elem_of_cons; [done | by apply Hbefore].
      * intros s [->|Hs]%elem_of_cons; [done | by apply IH].
  - split; [done|]. by intros s ?%elem_of_nil.
Qed.

(** X13: an exception while listing the stores never escapes
    [find_existing_store].  When the listing fails before any matching store
    was yielded, one line "Error listing stores: ..." is printed and the
    result is [None], as if no such store existed; when a matching store is
    yielded first, it is returned and the failure is never reached. *)
Theorem listing_failure_swallowed (before : list Api.FileSearchStore)
    (e wanted : str) :
  (∀ s, s ∈ before → Api.display_name s ≠ Py wanted) →
  Setup.find_existing_store (Api.followed_by before (Api.Failed e)) wanted
  = ([lit "Error listing stores: " ++ e], None) ∧
  FileSearchGuides.find_existing_store
    (Api.followed_by before (Api.Failed e)) wanted
  = ([lit "Error listing stores: " ++ e], None) ∧
  Setup.find_existing_store (Api.followed_by before Api.Exhausted) wanted
  = ([], None) ∧
  ∀ store, Api.display_name store = Py wanted →
    Setup.find_existing_store
      (Api.followed_by before (Api.Next store (Api.Failed e))) wanted
    = ([], Some store).
Proof.
  induction before as [|s before IH]; intros Hbefore; simpl.
  - repeat split. intros store Hstore. by rewrite decide_True.
  - rewrite !decide_False by (apply Hbefore, elem_of_cons; by left).
    destruct IH as (IH1 & IH2 & IH3 & IH4).
    { intros s' Hs'. apply Hbefore, elem_of_cons. by right. }
    repeat split; try done. intros store Hstore.
    rewrite decide_False by (apply Hbefore, elem_of_cons; by left).
    by apply IH4.
Qed.

Lemma listing_failure_swallowed_witness :
  let other := {| Api.name := Py (lit "fileSearchStores/other");
                  Api.display_name := Py (lit "Other") |} in
  Setup.find_existing_store
    (Api.followed_by [other] (Api.Failed (lit "timeout")))
    (lit "GSPP-User-Guides")
  = ([lit "Error listing stores: " ++ lit "timeout"], None) ∧
  FileSearchGuides.find_existing_store
    (Api.followed_by [other] (Api.Failed (lit "timeout")))
    (lit "GSPP-User-Guides")
  = ([lit "Error listing stores: " ++ lit "timeout"], None) ∧
  Setup.find_existing_store
    (Api.followed_by [other] Api.Exhausted) (lit "GSPP-User-Guides")
  = ([], None) ∧
  ∀ store, Api.display_name store = Py (lit "GSPP-User-Guides") →
    Setup.find_existing_store
      (Api.followed_by [other] (Api.Next store (Api.Failed (lit "timeout"))))
      (lit "GSPP-User-Guides")
    = ([], Some store).
Proof.
  intros other.
  apply (listing_failure_swallowed [other] (lit "timeout")
           (lit "GSPP-User-Guides")).
  intros s Hs. apply list_elem_of_singleton in Hs. subst s. discriminate.
Defined.

(** ** The access gate of the app (app.py) *)

Lemma startswith_spec (prefix : str) : ∀ s,
  startswith prefix s = true ↔ ∃ rest, s = prefix ++ rest.
Proof.
  induction prefix as [|a prefix IH]; intros s; simpl.
  - split; [intros _; by exists s | done].
  - destruct s as [|b s].
    + split; [done | by intros (rest & ?)].
    + destruct (decide (a = b)) as [->|Hne].
      * rewrite IH. split.
        -- intros (rest & ->). by exists rest.
        -- intros (rest & [= ->]). by exists rest.
      * split; [done|]. intros (rest & [= ? _]). done.
Qed.

Lemma prompt_session_gated session_state entered pressed :
  gated session_state →
  gated (fst (prompt_for_store_name session_state entered pressed)).
Proof.
  intros Hgated. unfold prompt_for_store_name.
  destruct pressed; [|done].
  destruct (startswith (lit "fileSearchStores/") entered) eqn:Hprefix.
  - apply startswith_spec in Hprefix as (rest & ->).
    replace (truthy (lit "fileSearchStores/" ++ rest)) with true by done.
    cbn [andb fst]. intros v. rewrite lookup_insert_eq.
    intros [= <-]. by exists rest.
  - rewrite andb_false_r. by destruct (truthy entered).
Qed.

(** X14: the gate accepts exactly the names that begin with
    "fileSearchStores/" (the bare prefix included), and an accepted name is
    what [load_config] then returns.  Pressing the button with such a name
    stores it in the session state and reruns the script; with no
    configuration file and secrets that hold no STORE_NAME, [load_config] on
    the new state returns the fallback configuration for that name. *)
Theorem gate_accepts_prefixed_names {J : Type}
    (session_state : gmap string (value str)) (entered : str)
    (secrets : gmap string (value str)) :
  secrets !! "STORE_NAME" = None →
  let after := prompt_for_store_name session_state entered true in
  (snd after = Rerun ↔ ∃ rest, entered = lit "fileSearchStores/" ++ rest) ∧
  (snd after = Rerun →
   fst after = <["user_store_name" := Py entered]> session_state ∧
   load_config (J := J) None (Some (SecretsMap secrets)) (fst after)
   = Returns (Some (Fallback (fallback_config (Py entered))))) ∧
  (snd after ≠ Rerun →
   fst after = session_state ∧
   (snd after = ShowWarning ↔ entered = []) ∧
   (snd after = ShowError ↔ entered ≠ [])).
Proof.
  intros Hsecret after. subst after. unfold prompt_for_store_name.
  destruct (startswith (lit "fileSearchStores/") entered) eqn:Hprefix.
  - assert (Hrest : ∃ rest, entered = lit "fileSearchStores/" ++ rest)
      by (by apply startswith_spec).
    destruct entered as [|a entered]; [done|]. cbn [truthy list_truthy andb].
    split; [done|]. split; [|done]. intros _. split; [done|].
    unfold load_config, session_config. cbn [fst].
    rewrite Hsecret, lookup_insert_eq. done.
  - assert (Hno : ¬ ∃ rest, entered = lit "fileSearchStores/" ++ rest).
    { intros H%startswith_spec. by rewrite Hprefix in H. }
    rewrite andb_false_r.
    destruct entered as [|a entered]; cbn [truthy list_truthy fst snd].
    + split; [split; [done | by intros ?] |]. split; [done|]. intros _.
      split; [done|]. split; done.
    + split; [split; [done | by intros ?] |]. split; [done|]. intros _.
      split; [done|]. split; done.
Qed.

Lemma gate_accepts_prefixed_names_witness :
  let entered := lit "fileSearchStores/gspp-1" in
  let after := prompt_for_store_name ∅ entered true in
  (snd after = Rerun ↔ ∃ rest, entered = lit "fileSearchStores/" ++ rest) ∧
  (snd after = Rerun →
   fst after = <["user_store_name" := Py entered]> ∅ ∧
   load_config (J := unit) None (Some (SecretsMap ∅)) (fst after)
   = Returns (Some (Fallback (fallback_config (Py entered))))) ∧
  (snd after ≠ Rerun →
   fst after = ∅ ∧
   (snd after = ShowWarning ↔ entered = []) ∧
   (snd after = ShowError ↔ entered ≠ [])).
Proof.
  intros entered after.
  apply (gate_accepts_prefixed_names (J := unit) ∅ entered ∅).
  reflexivity.
Defined.

(** X15: the store name taken from the session state has always passed the
    gate.  If the session state holds no store name or one that begins with
    "fileSearchStores/", this still holds after [prompt_for_store_name],
    whatever was entered and whether or not the button was pressed; and
    then, with no configuration file and secrets that can be read and hold no
    STORE_NAME, [load_config] raises nothing and any configuration it returns
    names a store that begins with "fileSearchStores/" and lists the two
    guides. *)
Theorem gate_invariant {J : Type}
    (session_state : gmap string (value str)) (entered : str)
    (pressed : bool) (secrets : gmap string (value str)) :
  gated session_state →
  secrets !! "STORE_NAME" = None →
  let after := fst (prompt_for_store_name session_state entered pressed) in
  gated after ∧
  ∃ res,
    load_config (J := J) None (Some (SecretsMap secrets)) after
    = Returns res ∧
    ∀ config, res = Some config →
      ∃ rest,
        config = Fallback
                   {| store_name := Py (lit "fileSearchStores/" ++ rest);
                      store_display_name := lit "GSPP-User-Guides";
                      pdf_files := [lit "GSPP Job Planning User Guide";
                                    lit "GSPP Sweet Editor User Guide"] |}.
Proof.
  intros Hgated Hsecret after.
  assert (Hafter : gated after) by (by apply prompt_session_gated).
  split; [done|]. unfold load_config, session_config. rewrite Hsecret.
  destruct (after !! "user_store_name") as [v|] eqn:Hv.
  - destruct (Hafter v Hv) as (rest & ->).
    destruct (truthy (Py (lit "fileSearchStores/" ++ rest))) eqn:Htruthy.
    + eexists. split; [done|]. intros config [= <-]. by exists rest.
    + eexists. split; [done|]. by intros config.
  - eexists. split; [done|]. by intros config.
Qed.

Lemma gate_invariant_witness :
  let after := fst (prompt_for_store_name ∅ (lit "stores/gspp") true) in
  gated after ∧
  ∃ res,
    load_config (J := unit) None (Some (SecretsMap ∅)) after = Returns res ∧
    ∀ config, res = Some config →
      ∃ rest,
        config = Fallback
                   {| store_name := Py (lit "fileSearchStores/" ++ rest);
                      store_display_name := lit "GSPP-User-Guides";
                      pdf_files := [lit "GSPP Job Planning User Guide";
                                    lit "GSPP Sweet Editor User Guide"] |}.
Proof.
  intros after.
  apply (gate_invariant (J := unit) ∅ (lit "stores/gspp") true ∅);
    [|reflexivity].
  intros v Hv. by rewrite lookup_empty in Hv.
Defined.

